(** * bf3dp_fab: the fabrication run script and its joint check

    A shallow embedding of [src/bf3dp_fab/run/__main__.py].

    - Python floats (joint angles, frame coordinates, wait times) are
      idealised as rationals [Q]; integer constants are [Z].
    - The script talks to the robot through [abb.send] (fire-and-forget)
      and [abb.send_and_wait] (blocking) and to the console through
      [print].  Both are recorded, in program order, in a trace of
      events; exceptions are an explicit outcome.
    - [compas.geometry] and [compas_rrc] are external: a [Frame] is the
      record of what the script reads from it (point, xaxis, yaxis), an
      instruction is a constructor carrying its arguments.  The frame
      constructor normalises the axes it is given; on the axes of a frame
      that is the identity and is left out.  A frame object is truthy, so
      [not highest_placed] holds of [None] only. *)

From Stdlib Require Import List ZArith QArith Bool String Lia Arith.
From Stdlib Require Import DecimalString.
Import ListNotations.

Local Open Scope string_scope.
Local Open Scope Z_scope.
Local Open Scope list_scope.

(** ** Geometry as the script uses it *)

Record Point := mkPoint { x : Q; y : Q; z : Q }.
Record Vector := mkVector { vx : Q; vy : Q; vz : Q }.

(** [cg.Frame(point, xaxis=..., yaxis=...)] *)
Record Frame := mkFrame { point : Point; xaxis : Vector; yaxis : Vector }.

(** [Point.__add__] and [Point.__truediv__]: component-wise. *)
Definition point_add (p q : Point) : Point :=
  mkPoint (x p + x q)%Q (y p + y q)%Q (z p + z q)%Q.

Definition point_div (p : Point) (n : Q) : Point :=
  mkPoint (x p / n)%Q (y p / n)%Q (z p / n)%Q.

(** [Frame.copy()] builds a frame with the same data. *)
Definition copy (f : Frame) : Frame :=
  mkFrame (point f) (xaxis f) (yaxis f).

(** ** Robot instructions and events *)

Inductive Zone := FINE | Z1 | Z5 | Z10.
Inductive Motion := JOINT | LINEAR.

Inductive console :=
| Line (s : string)
| JointOutOfBounds (joint_number : nat) (min_ max_ : Z) (actual : Q).

Inductive instruction :=
| SetAcceleration (acc ramp : Z)
| SetMaxSpeed (override max_tcp : Z)
| SetDigital (io_name : string) (value : Z)
| SetTool (tool_name : string)
| SetWorkObject (wobj_name : string)
| MoveToJoints (joints : list Z) (ext_axes : list Z) (speed : Z) (zone : Zone)
| MoveToFrame (frame : Frame) (speed : Z) (zone : Zone) (motion : Motion)
| WaitTime (seconds : Q)
| PrintText (text : string)
| GetJoints.

Inductive event :=
| RosRun
| RosClose
| RosTerminate
| Print (c : console)
| Send (i : instruction)
| SendAndWait (i : instruction).

Inductive exn :=
| IndexError
| AttributeError
| Exception (msg : string).

(** ** A trace-and-exception monad for the script *)

Inductive outcome (A : Type) :=
| Return (a : A)
| Raise (e : exn).
Arguments Return {A} a.
Arguments Raise {A} e.

Definition M (A : Type) : Type := list event * outcome A.

Definition ret {A} (a : A) : M A := ([], Return a).

Definition bind {A B} (m : M A) (f : A -> M B) : M B :=
  match m with
  | (t, Return a) => let (t', r) := f a in (t ++ t', r)
  | (t, Raise e) => (t, Raise e)
  end.

Definition emit (e : event) : M unit := ([e], Return tt).
Definition raise {A} (e : exn) : M A := ([], Raise e).

Definition trace {A} (m : M A) : list event := fst m.
Definition result {A} (m : M A) : outcome A := snd m.

Declare Scope run_scope.
Delimit Scope run_scope with run.
Notation "x <- c1 ;; c2" := (bind c1 (fun x => c2))
  (at level 61, c1 at next level, right associativity) : run_scope.
Notation "c1 ;; c2" := (bind c1 (fun _ => c2))
  (at level 61, right associativity) : run_scope.

(** [abb.send], [abb.send_and_wait] and [print]. *)
Definition send (i : instruction) : M unit := emit (Send i).
Definition send_and_wait (i : instruction) : M unit := emit (SendAndWait i).
Definition print (c : console) : M unit := emit (Print c).

(** [if c: body] with no else branch. *)
Definition when (c : bool) (body : M unit) : M unit :=
  if c then body else ret tt.

(** [l[i]] for a non-negative index on a Python list. *)
Definition index {A} (l : list A) (i : nat) : M A :=
  match nth_error l i with
  | Some a => ret a
  | None => raise IndexError
  end.

(** [try: body  except IndexError: pass] *)
Definition try_except_IndexError (body : M unit) : M unit :=
  match body with
  | (t, Raise IndexError) => (t, Return tt)
  | _ => body
  end.

(** [for i in range(start, stop)] threading the loop-carried variable. *)
Fixpoint for_each {S : Type} (l : list nat) (body : nat -> S -> M S) (s : S)
  : M S :=
  match l with
  | [] => ret s
  | i :: l' => bind (body i s) (for_each l' body)
  end.

Definition range (start stop : nat) : list nat := seq start (stop - start).

Definition for_range {S : Type} (start stop : nat)
  (body : nat -> S -> M S) (s : S) : M S :=
  for_each (range start stop) body s.

(** ** Module constants *)

Definition STEPPER_FORWARD_DO := "DO_9".
Definition STEPPER_BACKWARDS_DO := "DO_10".
Definition PRESSURE_DO := "DO_1".
Definition TRAVEL_SPEED := 250.
Definition PRINT_SPEED := 250.
Definition EXTERNAL_AXES_DUMMY : list Z := [].
Definition DRY_RUN := false.
Definition TOOL := "t_3dp_clay".
Definition WOBJ := "w_3dp_clay".
Definition Z_HOP : Q := 30.
Definition EXTRUSION_SPEED_MM_PER_SEC : Q := 10.6.
Definition EXTRUSION_LENGTH : Q := 28.
Definition PAUSE_AT_PT_SECONDS : Q :=
  (EXTRUSION_LENGTH / EXTRUSION_SPEED_MM_PER_SEC)%Q.
Definition START_FROM : nat := 449.
Definition HOME_POS : list Z := [0; 0; 0; 0; 0; 180].
Definition RESET_POS : list Z := [0; 0; 10; 0; 20; 180].
Definition OK_RANGES : list (Z * Z) :=
  [(-90, 90); (-360, 360); (-180, 180); (-100, 100); (-360, 360); (0, 360)].

(** ** [is_robot_joints_ok] *)

Definition Qltb (a b : Q) : bool :=
  match (a ?= b)%Q with Lt => true | _ => false end.

(** [min_ < joint < max_], a chained comparison. *)
Definition in_range (min_ : Z) (joint : Q) (max_ : Z) : bool :=
  Qltb (inject_Z min_) joint && Qltb joint (inject_Z max_).

Definition zip {A B} (l : list A) (l' : list B) : list (A * B) := combine l l'.

Definition enumerate {A} (l : list A) : list (nat * A) :=
  combine (seq 0 (List.length l)) l.

(** The body of the [for] loop, with its early [return False]. *)
Fixpoint joints_loop (l : list (nat * (Q * (Z * Z)))) : M bool :=
  match l with
  | [] => ret true
  | (i, joint_and_range) :: rest =>
      let '(joint, range_) := joint_and_range in
      let '(min_, max_) := range_ in
      if negb (in_range min_ joint max_) then
        bind (print (JointOutOfBounds (i + 1)%nat min_ max_ joint))
             (fun _ => ret false)
      else joints_loop rest
  end.

Definition is_robot_joints_ok (robot_joints : list Q) : M bool :=
  joints_loop (enumerate (zip robot_joints OK_RANGES)).

(** ** The run script *)

(** The content of [frames.json] as the script reads it. *)
Record frames := mkFrames {
  extrude_frames : list Frame;
  travel_frames : list Frame
}.

(** [str(n)] inside the f-string of the progress message. *)
Definition str (n : nat) : string := NilEmpty.string_of_uint (Nat.to_uint n).

(** Lines 133-136: [if not highest_placed: ... elif ... > ...: ...]. *)
Definition update_highest_placed (highest_placed : option Frame)
  (extrude_frame : Frame) : option Frame :=
  match highest_placed with
  | None => Some extrude_frame
  | Some hp =>
      if Qltb (z (point hp)) (z (point extrude_frame))
      then Some (copy extrude_frame)
      else Some hp
  end.

(** [highest_placed.point.z]; on [None] the attribute access raises. *)
Definition point_z_of (highest_placed : option Frame) : M Q :=
  match highest_placed with
  | Some hp => ret (z (point hp))
  | None => raise AttributeError
  end.

(** Lines 156-168: the frame of the hop between two elements. *)
Definition safe_midpoint_frame (entry_frame next_entry_frame : Frame)
  (highest_placed_z : Q) (z_hop : Q) : Frame :=
  let midpoint_exit_next_entry :=
    point_div (point_add (point entry_frame) (point next_entry_frame)) 2 in
  let safe_midpoint_z := (highest_placed_z + z_hop)%Q in
  let safe_midpoint :=
    mkPoint (x midpoint_exit_next_entry) (y midpoint_exit_next_entry)
            safe_midpoint_z in
  mkFrame safe_midpoint (xaxis next_entry_frame) (yaxis next_entry_frame).

Local Open Scope run_scope.

Section Script.

(** [DRY_RUN] and [START_FROM] are fixed in the source; the frames file
    and the joint readings of the robot (one per cycle, by index) are
    the inputs of a run. *)
Variable dry_run : bool.
Variable start_from : nat.
Variable frames_dict : frames.
Variable robot_joints_at : nat -> list Q.

(** [robot_joints, _ = abb.send_and_wait(rrc.GetJoints())] *)
Definition get_joints (i : nat) : M (list Q) :=
  send_and_wait GetJoints ;; ret (robot_joints_at i).

(** Lines 154-176: the hop, ended by [IndexError] at the last index. *)
Definition transit_try (i : nat) (entry_frame : Frame)
  (highest_placed : option Frame) : M unit :=
  try_except_IndexError
    (next_entry_frame <- index (travel_frames frames_dict) (i + 1) ;;
     safe_midpoint_z_base <- point_z_of highest_placed ;;
     send_and_wait
       (MoveToFrame
          (safe_midpoint_frame entry_frame next_entry_frame
             safe_midpoint_z_base Z_HOP)
          TRAVEL_SPEED Z5 JOINT)).

(** The same step with the explicit bounds check [i + 1 < n] of the
    specification in place of the exception. *)
Definition transit_checked (n : nat) (i : nat) (entry_frame : Frame)
  (highest_placed : option Frame) : M unit :=
  if (i + 1 <? n)%nat then
    next_entry_frame <- index (travel_frames frames_dict) (i + 1) ;;
    safe_midpoint_z_base <- point_z_of highest_placed ;;
    send_and_wait
      (MoveToFrame
         (safe_midpoint_frame entry_frame next_entry_frame
            safe_midpoint_z_base Z_HOP)
         TRAVEL_SPEED Z5 JOINT)
  else ret tt.

(** Lines 104-176: one iteration, for a given transit step. *)
Definition cycle (transit : nat -> Frame -> option Frame -> M unit)
  (n_extrusions : nat) (i : nat) (highest_placed : option Frame)
  : M (option Frame) :=
  travel_frame <- index (travel_frames frames_dict) i ;;
  let entry_frame := travel_frame in
  let exit_frame := travel_frame in
  extrude_frame <- index (extrude_frames frames_dict) i ;;
  send (MoveToFrame entry_frame TRAVEL_SPEED Z1 JOINT) ;;
  send (MoveToFrame extrude_frame PRINT_SPEED FINE LINEAR) ;;
  when (negb dry_run) (send (SetDigital STEPPER_FORWARD_DO 1)) ;;
  send (WaitTime PAUSE_AT_PT_SECONDS) ;;
  send (SetDigital STEPPER_FORWARD_DO 0) ;;
  when (negb dry_run)
    (send (SetDigital STEPPER_BACKWARDS_DO 1) ;; send (WaitTime 0.5)) ;;
  send (SetDigital STEPPER_BACKWARDS_DO 0) ;;
  let msg :=
    ("Extrusion number " ++ str i ++ "/" ++ str n_extrusions
       ++ " done.")%string in
  print (Line msg) ;;
  send (PrintText msg) ;;
  let highest_placed := update_highest_placed highest_placed extrude_frame in
  send (MoveToFrame exit_frame TRAVEL_SPEED Z1 LINEAR) ;;
  robot_joints <- get_joints i ;;
  ok <- is_robot_joints_ok robot_joints ;;
  when (negb ok)
    (send (PrintText "Resetting joint positions.") ;;
     send (MoveToJoints RESET_POS EXTERNAL_AXES_DUMMY TRAVEL_SPEED Z10)) ;;
  transit i entry_frame highest_placed ;;
  ret highest_placed.

Definition loop_body := cycle transit_try.

(** Lines 55-185, for a given loop body. *)
Definition script
  (body : nat -> nat -> option Frame -> M (option Frame)) : M unit :=
  emit RosRun ;;
  print (Line "Connected.") ;;
  let acc := 100 in
  let ramp := 100 in
  send (SetAcceleration acc ramp) ;;
  let override := 100 in
  let max_tcp := 250 in
  send (SetMaxSpeed override max_tcp) ;;
  send (SetDigital STEPPER_FORWARD_DO 0) ;;
  send (SetDigital STEPPER_BACKWARDS_DO 0) ;;
  send (SetDigital PRESSURE_DO 0) ;;
  send (SetTool TOOL) ;;
  send (SetWorkObject WOBJ) ;;
  print (Line "Tool, Wobj, Acc and MaxSpeed sent to robot") ;;
  when (negb dry_run) (send (SetDigital PRESSURE_DO 1)) ;;
  send (MoveToJoints HOME_POS EXTERNAL_AXES_DUMMY TRAVEL_SPEED FINE) ;;
  let extrude_frames := extrude_frames frames_dict in
  let travel_frames := travel_frames frames_dict in
  when (negb (List.length extrude_frames =? List.length travel_frames)%nat)
    (raise
       (Exception
          "Lengths of extrude_frames and travel_frames do not match")) ;;
  let n_extrusions := List.length extrude_frames in
  for_range start_from n_extrusions (body n_extrusions) None ;;
  send (MoveToJoints HOME_POS EXTERNAL_AXES_DUMMY TRAVEL_SPEED FINE) ;;
  send (SetDigital PRESSURE_DO 0) ;;
  emit RosClose ;;
  emit RosTerminate.

Definition main : M unit := script loop_body.

(** The run with the exception-driven end of loop replaced by the
    explicit bounds check. *)
Definition main_checked : M unit :=
  script (fun n => cycle (transit_checked n) n).

End Script.

(** The run as the source configures it. *)
Definition configured_main := main DRY_RUN START_FROM.

(** ** Observations on traces *)

Definition instruction_of (e : event) : option instruction :=
  match e with
  | Send i | SendAndWait i => Some i
  | _ => None
  end.

Definition is_move (i : instruction) : bool :=
  match i with
  | MoveToJoints _ _ _ _ | MoveToFrame _ _ _ _ => true
  | _ => false
  end.

(** A motion command sent to the robot, in either mode. *)
Definition is_motion_command (e : event) : bool :=
  match instruction_of e with
  | Some i => is_move i
  | None => false
  end.

(** Sent with [send_and_wait]: the script blocks on the answer. *)
Definition is_awaited (e : event) : bool :=
  match e with
  | SendAndWait _ => true
  | _ => false
  end.

Definition awaited (t : list event) : list event := filter is_awaited t.

(** The value an event gives to digital output [io], if it sets it. *)
Definition sets (io : string) (e : event) : option Z :=
  match instruction_of e with
  | Some (SetDigital io_name value) =>
      if String.eqb io_name io then Some value else None
  | _ => None
  end.

(** The value of digital output [io] after the commands of a trace, from
    the value [v] it had before. *)
Fixpoint signal_after (io : string) (v : Z) (t : list event) : Z :=
  match t with
  | [] => v
  | e :: t' =>
      signal_after io (match sets io e with Some v' => v' | None => v end) t'
  end.

(** The commands that energise an actuator: a signal set to 1 and the
    half-second wait of the retraction. *)
Definition drives_actuator (e : event) : bool :=
  match e with
  | Send (SetDigital _ 1) => true
  | Send (WaitTime t) => Qeq_bool t 0.5
  | _ => false
  end.

(** What one iteration at index [i] does to [highest_placed]. *)
Definition track (extrude_frames : list Frame) (highest_placed : option Frame)
  (i : nat) : option Frame :=
  match nth_error extrude_frames i with
  | Some extrude_frame => update_highest_placed highest_placed extrude_frame
  | None => highest_placed
  end.

(** [highest_placed] once the loop has gone through [range(start, stop)]. *)
Definition highest_placed_at (extrude_frames : list Frame)
  (start stop : nat) : option Frame :=
  fold_left (track extrude_frames) (range start stop) None.

(** The frame moves of a trace, in order: target, zone and motion. *)
Definition frame_move (e : event) : option (Frame * Zone * Motion) :=
  match instruction_of e with
  | Some (MoveToFrame f _ zone motion) => Some (f, zone, motion)
  | _ => None
  end.

Fixpoint frame_moves (t : list event) : list (Frame * Zone * Motion) :=
  match t with
  | [] => []
  | e :: t' =>
      match frame_move e with
      | Some m => m :: frame_moves t'
      | None => frame_moves t'
      end
  end.

(** ** Further observations on runs *)

(** The targets of the deposition moves of a trace (fine zone, linear
    motion), in order. *)
Definition deposition_of (m : Frame * Zone * Motion) : list Frame :=
  match m with
  | (f, FINE, LINEAR) => [f]
  | _ => []
  end.

Definition depositions (t : list event) : list Frame :=
  flat_map deposition_of (frame_moves t).

(** The joint moves of a trace, with the way they were sent. *)
Definition is_joint_move (e : event) : bool :=
  match instruction_of e with
  | Some (MoveToJoints _ _ _ _) => true
  | _ => false
  end.

(** Walks a trace from the stepper signals [forward] and [backwards] and
    tells whether the two are never at 1 together after a command. *)
Fixpoint steppers_exclusive (forward backwards : Z) (t : list event) : bool :=
  match t with
  | [] => true
  | e :: t' =>
      let forward' :=
        match sets STEPPER_FORWARD_DO e with Some v => v | None => forward end in
      let backwards' :=
        match sets STEPPER_BACKWARDS_DO e with
        | Some v => v
        | None => backwards
        end in
      negb ((forward' =? 1) && (backwards' =? 1))
      && steppers_exclusive forward' backwards' t'
  end.

(** The traces of the cycles of [range(start, stop)], each run from the
    [highest_placed] the cycles before it leave. *)
Definition cycles_trace (dry_run : bool) (frames_dict : frames)
  (robot_joints_at : nat -> list Q) (n start stop : nat) : list event :=
  flat_map
    (fun i =>
       trace (loop_body dry_run frames_dict robot_joints_at n i
                (highest_placed_at (extrude_frames frames_dict) start i)))
    (range start stop).

(** ** Sample inputs *)

Definition sample_frame (a b c : Q) : Frame :=
  mkFrame (mkPoint a b c) (mkVector 1 0 0) (mkVector 0 1 0).

(** Two elements, deposited at z = 10 and z = 25. *)
Definition sample_frames : frames :=
  mkFrames [sample_frame 0 0 10; sample_frame 1 1 25]
           [sample_frame 0 0 50; sample_frame 2 4 50].

(** One extrude frame and no travel frame. *)
Definition mismatched_frames : frames :=
  mkFrames [sample_frame 0 0 10] [].

(** A robot that always reports the home joints. *)
Definition home_reading (i : nat) : list Q := [0; 0; 0; 0; 0; 180]%Q.

(** ** The traces of the phases of a run *)

Definition pre_run (dry_run : bool) : list event :=
  [RosRun; Print (Line "Connected."); Send (SetAcceleration 100 100);
   Send (SetMaxSpeed 100 250); Send (SetDigital STEPPER_FORWARD_DO 0);
   Send (SetDigital STEPPER_BACKWARDS_DO 0); Send (SetDigital PRESSURE_DO 0);
   Send (SetTool TOOL); Send (SetWorkObject WOBJ);
   Print (Line "Tool, Wobj, Acc and MaxSpeed sent to robot")]
  ++ (if dry_run then [] else [Send (SetDigital PRESSURE_DO 1)])
  ++ [Send (MoveToJoints HOME_POS EXTERNAL_AXES_DUMMY TRAVEL_SPEED FINE)].

Definition post_run : list event :=
  [Send (MoveToJoints HOME_POS EXTERNAL_AXES_DUMMY TRAVEL_SPEED FINE);
   Send (SetDigital PRESSURE_DO 0); RosClose; RosTerminate].

Definition progress_message (i n : nat) : string :=
  ("Extrusion number " ++ str i ++ "/" ++ str n ++ " done.")%string.

(** Entry move to exit move of one cycle. *)
Definition deposit_trace (dry_run : bool) (n i : nat)
  (travel_frame extrude_frame : Frame) : list event :=
  [Send (MoveToFrame travel_frame TRAVEL_SPEED Z1 JOINT);
   Send (MoveToFrame extrude_frame PRINT_SPEED FINE LINEAR)]
  ++ (if dry_run then [] else [Send (SetDigital STEPPER_FORWARD_DO 1)])
  ++ [Send (WaitTime PAUSE_AT_PT_SECONDS);
      Send (SetDigital STEPPER_FORWARD_DO 0)]
  ++ (if dry_run then []
      else [Send (SetDigital STEPPER_BACKWARDS_DO 1); Send (WaitTime 0.5)])
  ++ [Send (SetDigital STEPPER_BACKWARDS_DO 0);
      Print (Line (progress_message i n));
      Send (PrintText (progress_message i n));
      Send (MoveToFrame travel_frame TRAVEL_SPEED Z1 LINEAR)].

(** Joint read, diagnostic of the check and reset move. *)
Definition monitor_trace (diagnostic : list event) (ok : bool) : list event :=
  [SendAndWait GetJoints] ++ diagnostic
  ++ (if ok then []
      else [Send (PrintText "Resetting joint positions.");
            Send (MoveToJoints RESET_POS EXTERNAL_AXES_DUMMY
                    TRAVEL_SPEED Z10)]).

(** The frame [highest_placed] holds after lines 133-136. *)
Definition highest_frame (highest_placed : option Frame)
  (extrude_frame : Frame) : Frame :=
  match highest_placed with
  | None => extrude_frame
  | Some hp =>
      if Qltb (z (point hp)) (z (point extrude_frame))
      then copy extrude_frame
      else hp
  end.

(** The hop to the next entry frame, when there is one. *)
Definition transit_trace (exit_frame : Frame) (next : option Frame)
  (highest : Frame) : list event :=
  match next with
  | Some next_entry_frame =>
      [SendAndWait
         (MoveToFrame
            (safe_midpoint_frame exit_frame next_entry_frame
               (z (point highest)) Z_HOP)
            TRAVEL_SPEED Z5 JOINT)]
  | None => []
  end.

(** Open-interval membership of a joint angle. *)
Definition strictly_inside (min_ : Z) (joint : Q) (max_ : Z) : Prop :=
  (inject_Z min_ < joint /\ joint < inject_Z max_)%Q.

(** * [fabrication_element.py]: the fabrication element

    Python values are dynamically typed: a field of an element holds a
    value of any kind.  Frames are objects, held by reference and
    mutated in place by [transform]; the heap maps a reference to the
    frame it holds now.  The base class [compas.data.Data] and the
    transformations of [compas.geometry] are external and taken as
    parameters. *)

Module FabricationElement.

Definition ref := nat.

Inductive value :=
| PyNone
| FrameRef (r : ref)
| Trajectory (configurations : list (list Q))
| Str (s : string)
| Int (n : Z).

Inductive error :=
| KeyError (key : string)
| TypeError
| AttributeError.

(** A [dict] with string keys, in insertion order. *)
Definition dict := list (string * value).

Fixpoint get (d : dict) (key : string) : option value :=
  match d with
  | [] => None
  | (k, v) :: d' => if String.eqb k key then Some v else get d' key
  end.

Fixpoint remove (d : dict) (key : string) : dict :=
  match d with
  | [] => []
  | (k, v) :: d' =>
      if String.eqb k key then remove d' key else (k, v) :: remove d' key
  end.

(** [d.pop(key, default)] *)
Definition pop (d : dict) (key : string) (default : value) : value * dict :=
  match get d key with
  | Some v => (v, remove d key)
  | None => (default, d)
  end.

Record element := mkElement {
  location_frame : value;
  entry_frame : value;
  exit_frame : value;
  entry_trajectory : value;
  exit_trajectory : value;
  placed_isotimestamp : value
}.

Definition heap := ref -> Frame.

Definition update (h : heap) (r : ref) (f : Frame) : heap :=
  fun r' => if Nat.eqb r' r then f else h r'.

Section Class.

(** The base initialiser, called on the keyword arguments left over:
    the error it raises on them, if any. *)
Variable Data_init : dict -> option error.

(** [compas.geometry.Transformation] and [Frame.transform], in place. *)
Variable Transformation : Type.
Variable frame_transform : Transformation -> Frame -> Frame.

(** Lines 47-67.  The three optional parameters are rebound from
    [kwargs] before they are stored. *)
Definition init (location_frame entry_frame exit_frame : value)
  (entry_trajectory exit_trajectory placed_isotimestamp : value)
  (kwargs : dict) : error + element :=
  let '(placed_isotimestamp, kwargs) :=
    pop kwargs "placed_isotimestamp" PyNone in
  let '(entry_trajectory, kwargs) := pop kwargs "entry_trajectory" PyNone in
  let '(exit_trajectory, kwargs) := pop kwargs "exit_trajectory" PyNone in
  match Data_init kwargs with
  | Some e => inl e
  | None =>
      inr (mkElement location_frame entry_frame exit_frame
             entry_trajectory exit_trajectory placed_isotimestamp)
  end.

(** Lines 79-89: the [data] property. *)
Definition data (self : element) : dict :=
  [("location_frame", location_frame self);
   ("entry_frame", entry_frame self);
   ("exit_frame", exit_frame self);
   ("entry_trajectory", entry_trajectory self);
   ("exit_trajectory", exit_trajectory self);
   ("placed_isotimestamp", placed_isotimestamp self)].

(** Lines 91-98: the [data] setter.  The fields are assigned one after
    the other; a missing key raises after the assignments before it. *)
Definition set_data (self : element) (data : dict) : element * option error :=
  match get data "location_frame" with
  | None => (self, Some (KeyError "location_frame"))
  | Some v1 =>
  let self := mkElement v1 (entry_frame self) (exit_frame self)
                (entry_trajectory self) (exit_trajectory self)
                (placed_isotimestamp self) in
  match get data "entry_frame" with
  | None => (self, Some (KeyError "entry_frame"))
  | Some v2 =>
  let self := mkElement (location_frame self) v2 (exit_frame self)
                (entry_trajectory self) (exit_trajectory self)
                (placed_isotimestamp self) in
  match get data "exit_frame" with
  | None => (self, Some (KeyError "exit_frame"))
  | Some v3 =>
  let self := mkElement (location_frame self) (entry_frame self) v3
                (entry_trajectory self) (exit_trajectory self)
                (placed_isotimestamp self) in
  match get data "entry_trajectory" with
  | None => (self, Some (KeyError "entry_trajectory"))
  | Some v4 =>
  let self := mkElement (location_frame self) (entry_frame self)
                (exit_frame self) v4 (exit_trajectory self)
                (placed_isotimestamp self) in
  match get data "exit_trajectory" with
  | None => (self, Some (KeyError "exit_trajectory"))
  | Some v5 =>
  let self := mkElement (location_frame self) (entry_frame self)
                (exit_frame self) (entry_trajectory self) v5
                (placed_isotimestamp self) in
  match get data "placed_isotimestamp" with
  | None => (self, Some (KeyError "placed_isotimestamp"))
  | Some v6 =>
  (mkElement (location_frame self) (entry_frame self) (exit_frame self)
     (entry_trajectory self) (exit_trajectory self) v6, None)
  end end end end end end.

(** Lines 100-109: [from_data].  The arguments are evaluated from left
    to right and the constructor is called with no other keyword. *)
Definition from_data (data : dict) : error + element :=
  match get data "location_frame" with
  | None => inl (KeyError "location_frame")
  | Some v1 =>
  match get data "entry_frame" with
  | None => inl (KeyError "entry_frame")
  | Some v2 =>
  match get data "exit_frame" with
  | None => inl (KeyError "exit_frame")
  | Some v3 =>
  match get data "entry_trajectory" with
  | None => inl (KeyError "entry_trajectory")
  | Some v4 =>
  match get data "exit_trajectory" with
  | None => inl (KeyError "exit_trajectory")
  | Some v5 =>
  match get data "placed_isotimestamp" with
  | None => inl (KeyError "placed_isotimestamp")
  | Some v6 => init v1 v2 v3 v4 v5 v6 []
  end end end end end end.

(** Lines 111-112. *)
Definition _get_defining_geometries (self : element) : list value :=
  [location_frame self; entry_frame self; exit_frame self].

(** The loop of lines 115-116: [geo.transform(xform)] on each value in
    turn; a value that is no frame has no such method. *)
Fixpoint transform_each (geos : list value) (xform : Transformation)
  (h : heap) : heap * option error :=
  match geos with
  | [] => (h, None)
  | FrameRef r :: rest =>
      transform_each rest xform (update h r (frame_transform xform (h r)))
  | _ :: _ => (h, Some AttributeError)
  end.

(** Lines 114-116. *)
Definition transform (self : element) (xform : Transformation) (h : heap)
  : heap * option error :=
  transform_each (_get_defining_geometries self) xform h.

End Class.

(** The keys of [data] and the fields they name, in the order of the
    assignments. *)
Definition keys : list string :=
  ["location_frame"; "entry_frame"; "exit_frame"; "entry_trajectory";
   "exit_trajectory"; "placed_isotimestamp"].

Definition fields (self : element) : list value :=
  [location_frame self; entry_frame self; exit_frame self;
   entry_trajectory self; exit_trajectory self; placed_isotimestamp self].

(** The references of the frames among some values. *)
Definition frame_refs (geos : list value) : list ref :=
  flat_map (fun v => match v with FrameRef r => [r] | _ => [] end) geos.

End FabricationElement.

(** * [simulation/agent.py]: the agent *)

Module Agent.

Inductive value :=
| Str (s : string)
| UUID (n : N).

Inductive error := TypeError.

(** [a + b]: [str] concatenates with [str] only, and a UUID object has
    no addition of its own. *)
Definition add (a b : value) : error + value :=
  match a, b with
  | Str s, Str s' => inr (Str (s ++ s')%string)
  | _, _ => inl TypeError
  end.

Record agent := mkAgent {
  name : value;
  position : Point;
  attributes : list (string * string)
}.

Section Class.

(** The constructor of [compas.geometry.Point] on the unpacked list of
    coordinates: external. *)
Variable Point_of : list Q -> error + Point.

(** Lines 6-9, for the UUID that [uuid4()] returns.  The name is
    computed first. *)
Definition init (name_prefix : string) (initial_position : list Q)
  (initial_attributes : option (list (string * string))) (uuid4 : N)
  : error + agent :=
  match add (Str name_prefix) (UUID uuid4) with
  | inl e => inl e
  | inr name =>
      match Point_of initial_position with
      | inl e => inl e
      | inr position =>
          let attributes :=
            match initial_attributes with
            | Some (_ :: _ as a) => a
            | _ => []
            end in
          inr (mkAgent name position attributes)
      end
  end.

End Class.

End Agent.

(** ** Sample elements *)

(** Three frame objects, one per field. *)
Definition sample_element : FabricationElement.element :=
  FabricationElement.mkElement
    (FabricationElement.FrameRef 0%nat) (FabricationElement.FrameRef 1%nat)
    (FabricationElement.FrameRef 2%nat)
    FabricationElement.PyNone FabricationElement.PyNone
    FabricationElement.PyNone.

(** One frame object for both the entry and the exit frame. *)
Definition shared_egress_element : FabricationElement.element :=
  FabricationElement.mkElement
    (FabricationElement.FrameRef 0%nat) (FabricationElement.FrameRef 1%nat)
    (FabricationElement.FrameRef 1%nat)
    FabricationElement.PyNone FabricationElement.PyNone
    FabricationElement.PyNone.

(** No entry frame. *)
Definition no_entry_element : FabricationElement.element :=
  FabricationElement.mkElement
    (FabricationElement.FrameRef 0%nat) FabricationElement.PyNone
    (FabricationElement.FrameRef 2%nat)
    FabricationElement.PyNone FabricationElement.PyNone
    FabricationElement.PyNone.

(** A heap with the same frame everywhere, and a lift along z. *)
Definition sample_heap : FabricationElement.heap :=
  fun _ => sample_frame 0 0 0.

Definition lift (dz : Q) (f : Frame) : Frame :=
  mkFrame (mkPoint (x (point f)) (y (point f)) (z (point f) + dz)%Q)
    (xaxis f) (yaxis f).

(** * Properties *)

(** ** The joint check *)

Lemma Qltb_lt (a b : Q) : Qltb a b = true <-> (a < b)%Q.
Proof.
  unfold Qltb. rewrite Qlt_alt.
  destruct (a ?= b)%Q; split; congruence.
Qed.

Lemma in_range_inside (min_ max_ : Z) (joint : Q) :
  in_range min_ joint max_ = true <-> strictly_inside min_ joint max_.
Proof.
  unfold in_range, strictly_inside.
  rewrite andb_true_iff, !Qltb_lt. tauto.
Qed.

Lemma in_range_outside (min_ max_ : Z) (joint : Q) :
  in_range min_ joint max_ = false <-> ~ strictly_inside min_ joint max_.
Proof.
  rewrite <- in_range_inside. destruct (in_range min_ joint max_); split;
    congruence.
Qed.

(** The loop over the zipped and enumerated readings, numbered from [k]:
    either every pair passes and nothing is printed, or the first failing
    pair is the one reported. *)
Lemma joints_loop_first (js : list Q) : forall (rs : list (Z * Z)) (k : nat),
  let m := joints_loop
             (combine (seq k (List.length (zip js rs))) (zip js rs)) in
  (m = ([], Return true) /\
   forall i j lo hi, nth_error js i = Some j -> nth_error rs i = Some (lo, hi) ->
     in_range lo j hi = true)
  \/
  (exists i j lo hi,
     nth_error js i = Some j /\ nth_error rs i = Some (lo, hi) /\
     in_range lo j hi = false /\
     (forall i' j' lo' hi', (i' < i)%nat ->
        nth_error js i' = Some j' -> nth_error rs i' = Some (lo', hi') ->
        in_range lo' j' hi' = true) /\
     m = ([Print (JointOutOfBounds (k + i + 1)%nat lo hi j)], Return false)).
Proof.
  induction js as [|j js IH]; intros rs k.
  - left. split; [reflexivity|]. intros [|i] ? ? ? H; discriminate H.
  - destruct rs as [|[lo hi] rs].
    + left. split; [reflexivity|]. intros [|i] ? ? ? _ H; discriminate H.
    + cbn [zip combine List.length seq joints_loop].
      destruct (in_range lo j hi) eqn:E; cbn [negb].
      * destruct (IH rs (S k)) as [[Hm Hall] | (i & j' & lo' & hi' & Hj & Hr & Hv & Hlow & Hm)].
        -- left. split; [exact Hm|].
           intros [|i] a b c Ha Hb; cbn in Ha, Hb.
           ++ congruence.
           ++ eapply Hall; eassumption.
        -- right. exists (S i), j', lo', hi'. repeat split; try assumption.
           ++ intros [|i'] a b c Hlt Ha Hb; cbn in Ha, Hb.
              ** congruence.
              ** eapply (Hlow i'); [lia | eassumption | eassumption].
           ++ unfold zip in Hm. rewrite Hm.
              replace (S k + i + 1)%nat with (k + S i + 1)%nat by lia.
              reflexivity.
      * right. exists 0%nat, j, lo, hi. repeat split; try assumption.
        -- intros i' ? ? ? Hlt. lia.
        -- replace (k + 0 + 1)%nat with (k + 1)%nat by lia. reflexivity.
Qed.

(** The check on any reading: silent success when every paired axis is
    strictly inside its range, otherwise one diagnostic, for the first
    axis that is not. *)
Lemma is_robot_joints_ok_cases (js : list Q) :
  (is_robot_joints_ok js = ([], Return true) /\
   forall i j lo hi,
     nth_error js i = Some j -> nth_error OK_RANGES i = Some (lo, hi) ->
     strictly_inside lo j hi)
  \/
  (exists i j lo hi,
     nth_error js i = Some j /\ nth_error OK_RANGES i = Some (lo, hi) /\
     ~ strictly_inside lo j hi /\
     (forall i' j' lo' hi', (i' < i)%nat ->
        nth_error js i' = Some j' -> nth_error OK_RANGES i' = Some (lo', hi') ->
        strictly_inside lo' j' hi') /\
     is_robot_joints_ok js =
       ([Print (JointOutOfBounds (i + 1)%nat lo hi j)], Return false)).
Proof.
  unfold is_robot_joints_ok, enumerate.
  destruct (joints_loop_first js OK_RANGES 0)
    as [[Hm Hall] | (i & j & lo & hi & Hj & Hr & Hv & Hlow & Hm)].
  - left. split; [exact Hm|].
    intros. apply in_range_inside. eauto.
  - right. exists i, j, lo, hi.
    split; [exact Hj|]. split; [exact Hr|].
    split; [now apply in_range_outside|].
    split; [|exact Hm].
    intros. apply in_range_inside. eauto.
Qed.

(** The check always returns, and prints nothing but its diagnostic. *)
Lemma is_robot_joints_ok_returns (js : list Q) :
  exists diagnostic ok,
    is_robot_joints_ok js = (diagnostic, Return ok) /\
    Forall (fun e => exists c, e = Print c) diagnostic.
Proof.
  destruct (is_robot_joints_ok_cases js)
    as [[Hm _] | (i & j & lo & hi & _ & _ & _ & _ & Hm)]; rewrite Hm.
  - exists [], true. split; [reflexivity | constructor].
  - eexists _, false. split; [reflexivity|]. repeat constructor. eauto.
Qed.

(** C2. A six-axis reading is valid exactly when each angle lies strictly
    inside the range of its axis, in the order (-90,90), (-360,360),
    (-180,180), (-100,100), (-360,360), (0,360); an angle equal to a bound
    makes the reading invalid; and an invalid reading produces a single
    diagnostic, for the lowest-numbered violating axis. *)
Theorem is_robot_joints_ok_six_axes (j1 j2 j3 j4 j5 j6 : Q) :
  let js := [j1; j2; j3; j4; j5; j6] in
  (result (is_robot_joints_ok js) = Return true <->
     strictly_inside (-90) j1 90 /\ strictly_inside (-360) j2 360 /\
     strictly_inside (-180) j3 180 /\ strictly_inside (-100) j4 100 /\
     strictly_inside (-360) j5 360 /\ strictly_inside 0 j6 360)
  /\
  (forall i j lo hi,
     nth_error js i = Some j -> nth_error OK_RANGES i = Some (lo, hi) ->
     (j == inject_Z lo \/ j == inject_Z hi)%Q ->
     result (is_robot_joints_ok js) = Return false)
  /\
  (result (is_robot_joints_ok js) = Return true ->
     trace (is_robot_joints_ok js) = [])
  /\
  (result (is_robot_joints_ok js) <> Return true ->
     exists i j lo hi,
       nth_error js i = Some j /\ nth_error OK_RANGES i = Some (lo, hi) /\
       ~ strictly_inside lo j hi /\
       (forall i' j' lo' hi', (i' < i)%nat ->
          nth_error js i' = Some j' ->
          nth_error OK_RANGES i' = Some (lo', hi') ->
          strictly_inside lo' j' hi') /\
       is_robot_joints_ok js =
         ([Print (JointOutOfBounds (i + 1)%nat lo hi j)], Return false)).
Proof.
  intros js.
  destruct (is_robot_joints_ok_cases js)
    as [[Hm Hall] | (i & j & lo & hi & Hj & Hr & Hv & Hlow & Hm)];
    rewrite Hm; unfold result, trace; cbn [fst snd].
  - split; [|split; [|split; [reflexivity | congruence]]].
    + split; [intros _ | reflexivity].
      exact (conj (Hall 0%nat _ _ _ eq_refl eq_refl)
            (conj (Hall 1%nat _ _ _ eq_refl eq_refl)
            (conj (Hall 2%nat _ _ _ eq_refl eq_refl)
            (conj (Hall 3%nat _ _ _ eq_refl eq_refl)
            (conj (Hall 4%nat _ _ _ eq_refl eq_refl)
                  (Hall 5%nat _ _ _ eq_refl eq_refl)))))).
    + intros i j lo hi Hj Hr Hb. exfalso.
      destruct (Hall i j lo hi Hj Hr) as [H1 H2].
      destruct Hb as [Hb | Hb]; rewrite Hb in *;
        eapply Qlt_irrefl; eassumption.
  - split; [|split; [reflexivity | split; [congruence|]]].
    + split; [congruence|].
      intros (H1 & H2 & H3 & H4 & H5 & H6). exfalso. apply Hv.
      do 6 (destruct i as [|i];
            [cbn in Hj, Hr; injection Hj as <-; injection Hr as <- <-;
             assumption |]).
      destruct i; discriminate Hj.
    + intros _. exists i, j, lo, hi. auto.
Qed.

(** C10. On a reading with fewer than six values only the axes present
    are paired with a range and inspected: the empty reading is valid, a
    reading is valid exactly when the angles it has are inside the ranges
    of their axes, and a diagnostic can only name an axis that is present
    and out of its range. *)
Theorem is_robot_joints_ok_short_reading (js : list Q)
  (Hshort : (List.length js < 6)%nat) :
  is_robot_joints_ok [] = ([], Return true)
  /\
  is_robot_joints_ok js =
    joints_loop (enumerate (zip js (firstn (List.length js) OK_RANGES)))
  /\
  (result (is_robot_joints_ok js) = Return true <->
     forall i j lo hi,
       nth_error js i = Some j -> nth_error OK_RANGES i = Some (lo, hi) ->
       strictly_inside lo j hi)
  /\
  (forall n lo hi a,
     In (Print (JointOutOfBounds n lo hi a)) (trace (is_robot_joints_ok js)) ->
     (1 <= n <= List.length js)%nat /\
     nth_error js (n - 1) = Some a /\
     nth_error OK_RANGES (n - 1) = Some (lo, hi) /\
     ~ strictly_inside lo a hi).
Proof.
  split; [reflexivity|]. split.
  { unfold is_robot_joints_ok, zip. now rewrite <- combine_firstn_l. }
  destruct (is_robot_joints_ok_cases js)
    as [[Hm Hall] | (i & j & lo & hi & Hj & Hr & Hv & Hlow & Hm)];
    rewrite Hm; unfold result, trace; cbn [fst snd].
  - split; [tauto|]. intros ? ? ? ? [].
  - split.
    + split; [congruence|]. intros Hall. exfalso. eauto.
    + intros n lo' hi' a [Hin | []].
      injection Hin as <- <- <- <-.
      assert (i < List.length js)%nat
        by (apply nth_error_Some; congruence).
      replace (i + 1 - 1)%nat with i by lia.
      split; [lia | auto].
Qed.

Lemma is_robot_joints_ok_short_reading_witness :
  (List.length [0%Q; 45%Q] < 6)%nat /\
  (result (is_robot_joints_ok [0%Q; 45%Q]) = Return true <->
     forall i j lo hi,
       nth_error [0%Q; 45%Q] i = Some j ->
       nth_error OK_RANGES i = Some (lo, hi) ->
       strictly_inside lo j hi).
Proof.
  assert (H : (List.length [0%Q; 45%Q] < 6)%nat) by (simpl; lia).
  split; [exact H|].
  exact (proj1 (proj2 (proj2 (is_robot_joints_ok_short_reading _ H)))).
Defined.

(** ** The transit frame *)

(** C3. The frame of the hop has the mean of the two frames' x and of
    their y, the z of the highest placed frame plus the hop height, and
    the axes of the next entry frame; the z of the two frames plays no
    part. *)
Theorem safe_midpoint_frame_coordinates
  (current_exit next_entry : Frame) (highest_placed_z hop_height : Q) :
  let f :=
    safe_midpoint_frame current_exit next_entry highest_placed_z hop_height in
  x (point f) = ((x (point current_exit) + x (point next_entry)) / 2)%Q /\
  y (point f) = ((y (point current_exit) + y (point next_entry)) / 2)%Q /\
  z (point f) = (highest_placed_z + hop_height)%Q /\
  xaxis f = xaxis next_entry /\
  yaxis f = yaxis next_entry /\
  (forall z_exit z_entry : Q,
     safe_midpoint_frame
       (mkFrame
          (mkPoint (x (point current_exit)) (y (point current_exit)) z_exit)
          (xaxis current_exit) (yaxis current_exit))
       (mkFrame
          (mkPoint (x (point next_entry)) (y (point next_entry)) z_entry)
          (xaxis next_entry) (yaxis next_entry))
       highest_placed_z hop_height = f).
Proof.
  cbv zeta. unfold safe_midpoint_frame, point_div, point_add.
  cbn [point x y z xaxis yaxis]. auto 7.
Qed.

(** ** One cycle of the loop *)

Lemma copy_id (f : Frame) : copy f = f.
Proof. now destruct f. Qed.

Lemma update_highest_placed_frame (hp : option Frame) (ef : Frame) :
  update_highest_placed hp ef = Some (highest_frame hp ef).
Proof.
  unfold update_highest_placed, highest_frame.
  destruct hp as [h|]; [destruct (Qltb _ _)|]; reflexivity.
Qed.

(** ** Loops and traces *)

Lemma bind_Return {A B} (m : M A) (f : A -> M B) (t : list event) (a : A) :
  m = (t, Return a) -> bind m f = (t ++ fst (f a), snd (f a)).
Proof. intros ->. unfold bind. now destruct (f a). Qed.

Lemma for_each_ext {S} (l : list nat) (body body' : nat -> S -> M S) :
  (forall i s, In i l -> body i s = body' i s) ->
  forall s, for_each l body s = for_each l body' s.
Proof.
  induction l as [|i l IH]; intros Hext s; [reflexivity|].
  cbn [for_each]. rewrite (Hext i s) by now left.
  unfold bind. destruct (body' i s) as [t [s'|e]]; [|reflexivity].
  rewrite IH; [reflexivity|]. intros. apply Hext. now right.
Qed.

(** A loop whose iterations all return goes through the whole list; its
    trace keeps what every iteration's trace has, and its state is the
    fold of the iterations' effects. *)
Lemma for_each_returns {S} (R : list event -> Prop) (step : S -> nat -> S)
  (l : list nat) (body : nat -> S -> M S) :
  R [] ->
  (forall t1 t2, R t1 -> R t2 -> R (t1 ++ t2)) ->
  (forall i s, In i l -> exists t, body i s = (t, Return (step s i)) /\ R t) ->
  forall s, exists t,
    for_each l body s = (t, Return (fold_left step l s)) /\ R t.
Proof.
  intros Hnil Happ. induction l as [|i l IH]; intros Hbody s.
  - exists []. now split.
  - destruct (Hbody i s) as (t1 & Hrun & Ht1); [now left|].
    destruct IH with (s := step s i) as (t2 & Hrest & Ht2).
    { intros. apply Hbody. now right. }
    exists (t1 ++ t2). split; [|now apply Happ].
    cbn [for_each fold_left].
    rewrite (bind_Return _ _ _ _ Hrun), Hrest. reflexivity.
Qed.

Lemma range_In (start stop i : nat) :
  In i (range start stop) <-> (start <= i < stop)%nat.
Proof. unfold range. rewrite in_seq. lia. Qed.

Lemma range_snoc (start stop : nat) :
  (start <= stop)%nat -> range start (S stop) = range start stop ++ [stop].
Proof.
  intros H. unfold range.
  replace (S stop - start)%nat with (S (stop - start)) by lia.
  rewrite seq_S. do 2 f_equal. lia.
Qed.

Lemma signal_after_app (io : string) (t1 t2 : list event) : forall v,
  signal_after io v (t1 ++ t2) = signal_after io (signal_after io v t1) t2.
Proof. induction t1 as [|e t1 IH]; intros v; cbn; [reflexivity | apply IH]. Qed.

(** ** The highest placed frame *)

Lemma highest_placed_at_snoc (fs : list Frame) (start stop : nat) :
  (start <= stop)%nat ->
  highest_placed_at fs start (S stop)
  = track fs (highest_placed_at fs start stop) stop.
Proof.
  intros H. unfold highest_placed_at.
  now rewrite range_snoc, fold_left_app by exact H.
Qed.

Lemma Qltb_false_le (a b : Q) : Qltb a b = false -> (b <= a)%Q.
Proof.
  intros H. apply Qnot_lt_le. intros Hlt.
  apply Qltb_lt in Hlt. congruence.
Qed.

(** One more iteration keeps the frame or takes a strictly higher one. *)
Lemma highest_placed_at_step (fs : list Frame) (start m : nat) (h : Frame) :
  (start <= m)%nat ->
  highest_placed_at fs start m = Some h ->
  highest_placed_at fs start (S m)
  = match nth_error fs m with
    | Some ef => if Qltb (z (point h)) (z (point ef)) then Some ef else Some h
    | None => Some h
    end.
Proof.
  intros Hle Hm. rewrite highest_placed_at_snoc, Hm by exact Hle.
  unfold track, update_highest_placed.
  destruct (nth_error fs m) as [ef|]; [|reflexivity].
  now rewrite copy_id.
Qed.

Lemma highest_placed_at_grows (fs : list Frame) (start m : nat) (h : Frame) :
  (start <= m)%nat ->
  highest_placed_at fs start m = Some h ->
  exists h', highest_placed_at fs start (S m) = Some h' /\
             (z (point h) <= z (point h'))%Q.
Proof.
  intros Hle Hm. rewrite (highest_placed_at_step _ _ _ _ Hle Hm).
  destruct (nth_error fs m) as [ef|].
  - destruct (Qltb _ _) eqn:E.
    + exists ef. split; [reflexivity|].
      apply Qlt_le_weak. now apply Qltb_lt.
    + exists h. split; [reflexivity | apply Qle_refl].
  - exists h. split; [reflexivity | apply Qle_refl].
Qed.

Lemma highest_placed_at_monotone (fs : list Frame) (start m : nat) (h : Frame) :
  (start <= m)%nat ->
  highest_placed_at fs start m = Some h ->
  forall m', (m <= m')%nat ->
    exists h', highest_placed_at fs start m' = Some h' /\
               (z (point h) <= z (point h'))%Q.
Proof.
  intros Hle Hm m' Hmm'.
  induction Hmm' as [|m' Hmm' IH].
  - exists h. split; [exact Hm | apply Qle_refl].
  - destruct IH as (k & Hk & Hhk).
    destruct (highest_placed_at_grows fs start m' k) as (k' & Hk' & Hkk');
      [lia | exact Hk |].
    exists k'. split; [exact Hk'|].
    eapply Qle_trans; eassumption.
Qed.

(** After at least one iteration the tracked frame is one of the frames
    gone through, and none of them is higher. *)
Lemma highest_placed_at_max (fs : list Frame) (start stop : nat) :
  (start < stop <= List.length fs)%nat ->
  exists h,
    highest_placed_at fs start stop = Some h /\
    (exists i, (start <= i < stop)%nat /\ nth_error fs i = Some h) /\
    (forall i f, (start <= i < stop)%nat -> nth_error fs i = Some f ->
       (z (point f) <= z (point h))%Q).
Proof.
  induction stop as [|stop IH]; intros [Hlt Hlen]; [lia|].
  destruct (nth_error fs stop) as [ef|] eqn:Eef;
    [|apply nth_error_None in Eef; lia].
  destruct (Nat.eq_dec start stop) as [<- | Hne].
  - exists ef. split; [|split].
    + rewrite highest_placed_at_snoc by lia.
      unfold highest_placed_at, range. rewrite Nat.sub_diag. cbn.
      unfold track. now rewrite Eef.
    + exists start. split; [lia | exact Eef].
    + intros i f Hi Hf. replace i with start in Hf by lia.
      rewrite Eef in Hf. injection Hf as <-. apply Qle_refl.
  - destruct IH as (h & Hh & (j & Hj & Hjh) & Hmax); [lia|].
    assert (Hle : (start <= stop)%nat) by lia.
    rewrite (highest_placed_at_step _ _ _ _ Hle Hh), Eef.
    destruct (Qltb (z (point h)) (z (point ef))) eqn:E.
    + exists ef. split; [reflexivity|]. split.
      * exists stop. split; [lia | exact Eef].
      * intros i f Hi Hf. destruct (Nat.eq_dec i stop) as [-> | Hi'].
        -- rewrite Eef in Hf. injection Hf as <-. apply Qle_refl.
        -- eapply Qle_trans; [apply (Hmax i); [lia | exact Hf]|].
           apply Qlt_le_weak. now apply Qltb_lt.
    + exists h. split; [reflexivity|]. split.
      * exists j. split; [lia | exact Hjh].
      * intros i f Hi Hf. destruct (Nat.eq_dec i stop) as [-> | Hi'].
        -- rewrite Eef in Hf. injection Hf as <-. now apply Qltb_false_le.
        -- apply (Hmax i); [lia | exact Hf].
Qed.

Section Run.

Variable dry_run : bool.
Variable start_from : nat.
Variable frames_dict : frames.
Variable robot_joints_at : nat -> list Q.

Local Abbreviation travel := (travel_frames frames_dict).
Local Abbreviation extrude := (extrude_frames frames_dict).
Local Abbreviation body := (loop_body dry_run frames_dict robot_joints_at).

Lemma transit_try_run (i : nat) (tf h : Frame) :
  transit_try frames_dict i tf (Some h)
  = (transit_trace tf (nth_error travel (i + 1)) h, Return tt).
Proof.
  unfold transit_try, index.
  destruct (nth_error travel (i + 1)); reflexivity.
Qed.

(** The bounds check of the specification decides exactly what the
    exception does, whatever [highest_placed] is. *)
Lemma transit_checked_try (i : nat) (tf : Frame) (hp : option Frame) :
  transit_checked frames_dict (List.length travel) i tf hp
  = transit_try frames_dict i tf hp.
Proof.
  unfold transit_checked, transit_try, index.
  destruct (Nat.ltb_spec (i + 1) (List.length travel)) as [Hlt | Hge].
  - apply nth_error_Some in Hlt.
    destruct (nth_error travel (i + 1)); [|congruence].
    destruct hp; reflexivity.
  - apply nth_error_None in Hge. rewrite Hge. reflexivity.
Qed.

(** A cycle whose index is in both lists runs to its end and leaves
    the trace of its three phases. *)
Lemma cycle_run (n i : nat) (hp : option Frame) (tf ef : Frame)
  (diagnostic : list event) (ok : bool) :
  nth_error travel i = Some tf ->
  nth_error extrude i = Some ef ->
  is_robot_joints_ok (robot_joints_at i) = (diagnostic, Return ok) ->
  body n i hp
  = (deposit_trace dry_run n i tf ef ++ monitor_trace diagnostic ok
       ++ transit_trace tf (nth_error travel (i + 1)) (highest_frame hp ef),
     Return (Some (highest_frame hp ef))).
Proof.
  intros Ht He Hj.
  unfold loop_body, cycle, index, get_joints.
  rewrite Ht, He.
  destruct dry_run;
    cbn -[is_robot_joints_ok transit_try update_highest_placed str
          String.append];
    rewrite Hj, update_highest_placed_frame, transit_try_run;
    destruct ok, (nth_error travel (i + 1));
    cbn -[str String.append]; rewrite <- ?app_assoc, ?app_nil_r;
    reflexivity.
Qed.

(** The script, phase by phase: the check of the lengths comes after
    the pre-run commands, the post-run commands after a loop that
    returned. *)
Lemma script_run (loop : nat -> nat -> option Frame -> M (option Frame)) :
  script dry_run start_from frames_dict loop
  = if (List.length extrude =? List.length travel)%nat then
      match for_range start_from (List.length extrude)
              (loop (List.length extrude)) None with
      | (t, Return _) => (pre_run dry_run ++ t ++ post_run, Return tt)
      | (t, Raise e) => (pre_run dry_run ++ t, Raise e)
      end
    else
      (pre_run dry_run,
       Raise
         (Exception
            "Lengths of extrude_frames and travel_frames do not match")).
Proof.
  unfold script. cbv zeta.
  destruct (List.length extrude =? List.length travel)%nat;
    destruct dry_run; cbn -[for_range]; [| |reflexivity..];
    destruct (for_range _ _ _ _) as [t [s|e]]; reflexivity.
Qed.

(** The loop over [range(start_from, stop)], for [stop] within both
    lists, returns; whatever holds of the trace of each cycle and is kept
    by concatenation holds of the trace of the loop. *)
Lemma loop_run (R : list event -> Prop) (n stop : nat) :
  (stop <= List.length travel)%nat ->
  (stop <= List.length extrude)%nat ->
  R [] ->
  (forall t1 t2, R t1 -> R t2 -> R (t1 ++ t2)) ->
  (forall i hp tf ef diagnostic ok,
     (start_from <= i < stop)%nat ->
     nth_error travel i = Some tf ->
     nth_error extrude i = Some ef ->
     is_robot_joints_ok (robot_joints_at i) = (diagnostic, Return ok) ->
     Forall (fun e => exists c, e = Print c) diagnostic ->
     R (deposit_trace dry_run n i tf ef ++ monitor_trace diagnostic ok
          ++ transit_trace tf (nth_error travel (i + 1))
               (highest_frame hp ef))) ->
  exists t,
    for_range start_from stop (body n) None
    = (t, Return (highest_placed_at extrude start_from stop)) /\ R t.
Proof.
  intros Ht He Hnil Happ Hcycle.
  unfold for_range, highest_placed_at.
  apply for_each_returns; [exact Hnil | exact Happ |].
  intros i hp Hi. apply range_In in Hi.
  destruct (nth_error travel i) as [tf|] eqn:Etf;
    [|apply nth_error_None in Etf; lia].
  destruct (nth_error extrude i) as [ef|] eqn:Eef;
    [|apply nth_error_None in Eef; lia].
  destruct (is_robot_joints_ok_returns (robot_joints_at i))
    as (diagnostic & ok & Hj & Hd).
  eexists. split.
  - rewrite (cycle_run n i hp tf ef diagnostic ok Etf Eef Hj).
    unfold track. rewrite Eef, update_highest_placed_frame. reflexivity.
  - now apply Hcycle.
Qed.

(** C4. In a run that passes the check of the lengths, the loop over
    [range(start_from, stop)] leaves in [highest_placed] the running
    maximum of the deposition z: the first iteration stores its extrude
    frame whatever it is, a later iteration replaces the stored frame
    only by an extrude frame with a strictly larger z, the stored z never
    decreases, and after any number of iterations the stored frame is
    one of the frames gone through and at least as high as each. *)
Theorem highest_placed_running_maximum
  (Hlen : List.length extrude = List.length travel) (stop : nat)
  (Hstop : (stop <= List.length extrude)%nat) :
  let at_ := highest_placed_at extrude start_from in
  result (for_range start_from stop (body (List.length extrude)) None)
  = Return (at_ stop)
  /\
  ((start_from < stop)%nat -> at_ (S start_from) = nth_error extrude start_from)
  /\
  (forall m h ef, (start_from < m < stop)%nat ->
     at_ m = Some h -> nth_error extrude m = Some ef ->
     at_ (S m) = if Qltb (z (point h)) (z (point ef)) then Some ef else Some h)
  /\
  (forall m m' h h', (start_from < m <= m')%nat -> (m' <= stop)%nat ->
     at_ m = Some h -> at_ m' = Some h' ->
     (z (point h) <= z (point h'))%Q)
  /\
  ((start_from < stop)%nat ->
   exists h,
     at_ stop = Some h /\
     (exists i, (start_from <= i < stop)%nat /\ nth_error extrude i = Some h) /\
     (forall i f, (start_from <= i < stop)%nat ->
        nth_error extrude i = Some f -> (z (point f) <= z (point h))%Q)).
Proof.
  intros at_. split; [|split; [|split; [|split]]].
  - destruct (loop_run (fun _ => True) (List.length extrude) stop)
      as (t & Hrun & _); auto; try lia.
    now rewrite Hrun.
  - intros Hlt. unfold at_.
    rewrite highest_placed_at_snoc by lia.
    unfold highest_placed_at, range. rewrite Nat.sub_diag. cbn.
    unfold track.
    destruct (nth_error extrude start_from) eqn:E; [reflexivity|].
    apply nth_error_None in E. lia.
  - intros m h ef Hm Hh Hef. unfold at_ in *.
    assert (Hle : (start_from <= m)%nat) by lia.
    rewrite (highest_placed_at_step _ _ _ _ Hle Hh), Hef. reflexivity.
  - intros m m' h h' Hm Hm' Hh Hh'. unfold at_ in *.
    destruct (highest_placed_at_monotone extrude start_from m h) with (m' := m')
      as (k & Hk & Hhk); [lia | exact Hh | lia |].
    congruence.
  - intros Hlt. apply highest_placed_at_max. lia.
Qed.

(** The diagnostic of the joint check is console output only. *)
Lemma diagnostic_silent (diagnostic : list event) :
  Forall (fun e => exists c, e = Print c) diagnostic ->
  awaited diagnostic = [] /\
  frame_moves diagnostic = [] /\
  filter is_motion_command diagnostic = [] /\
  filter (fun e => negb (drives_actuator e)) diagnostic = diagnostic /\
  forall io v, signal_after io v diagnostic = v.
Proof.
  induction 1 as [|e d [c ->] _ (IH1 & IH2 & IH3 & IH4 & IH5)].
  - repeat split.
  - cbn. rewrite IH4. repeat split; try assumption; intros; apply IH5.
Qed.

Lemma for_each_app {S} (l1 l2 : list nat) (loop : nat -> S -> M S) (s : S) :
  for_each (l1 ++ l2) loop s = bind (for_each l1 loop s) (for_each l2 loop).
Proof.
  revert s. induction l1 as [|i l1 IH]; intros s; cbn [for_each app].
  - unfold ret, bind. now destruct (for_each l2 loop s).
  - unfold bind at 1 3. destruct (loop i s) as [t [s'|e]]; [|reflexivity].
    rewrite IH. unfold bind.
    destruct (for_each l1 loop s') as [t1 [s1|e1]]; [|reflexivity].
    destruct (for_each l2 loop s1) as [t2 r2].
    now rewrite app_assoc.
Qed.

(** A run whose lists have the same length goes through the loop and the
    post-run commands and returns. *)
Lemma main_run (R : list event -> Prop) :
  List.length extrude = List.length travel ->
  R [] ->
  (forall t1 t2, R t1 -> R t2 -> R (t1 ++ t2)) ->
  (forall i hp tf ef diagnostic ok,
     nth_error travel i = Some tf ->
     nth_error extrude i = Some ef ->
     Forall (fun e => exists c, e = Print c) diagnostic ->
     R (deposit_trace dry_run (List.length extrude) i tf ef
          ++ monitor_trace diagnostic ok
          ++ transit_trace tf (nth_error travel (i + 1))
               (highest_frame hp ef))) ->
  exists t,
    main dry_run start_from frames_dict robot_joints_at
    = (pre_run dry_run ++ t ++ post_run, Return tt) /\ R t.
Proof.
  intros Hlen Hnil Happ Hcycle.
  destruct (loop_run R (List.length extrude) (List.length extrude))
    as (t & Hrun & Ht); auto; try lia.
  exists t. split; [|exact Ht].
  unfold main. rewrite script_run.
  fold (loop_body dry_run frames_dict robot_joints_at).
  rewrite Hrun, Hlen, Nat.eqb_refl. reflexivity.
Qed.

(** A run whose lists differ in length stops at the check. *)
Lemma main_stops_at_check :
  List.length extrude <> List.length travel ->
  main dry_run start_from frames_dict robot_joints_at
  = (pre_run dry_run,
     Raise
       (Exception
          "Lengths of extrude_frames and travel_frames do not match")).
Proof.
  intros Hne. unfold main. rewrite script_run.
  apply Nat.eqb_neq in Hne. now rewrite Hne.
Qed.

(** C1, as the script has it. With lists of different lengths the run
    ends in the exception of the length check, after the pre-run commands
    and before any command of the loop: the one motion command sent is
    the move to the home joints, and no frame move is sent. *)
Theorem main_length_mismatch
  (Hne : List.length extrude <> List.length travel) :
  let m := main dry_run start_from frames_dict robot_joints_at in
  m = (pre_run dry_run,
       Raise
         (Exception
            "Lengths of extrude_frames and travel_frames do not match"))
  /\
  filter is_motion_command (trace m)
  = [Send (MoveToJoints HOME_POS EXTERNAL_AXES_DUMMY TRAVEL_SPEED FINE)]
  /\
  frame_moves (trace m) = [].
Proof.
  cbv zeta. rewrite (main_stops_at_check Hne).
  destruct dry_run; repeat split.
Qed.

(** What a cycle does to the three digital outputs: the two stepper
    signals end at 0 whatever they were, the pressure supply is left as
    it was. *)
Lemma cycle_signals (n i : nat) (hp : option Frame) (tf ef : Frame)
  (diagnostic : list event) (ok : bool) :
  Forall (fun e => exists c, e = Print c) diagnostic ->
  let t := deposit_trace dry_run n i tf ef ++ monitor_trace diagnostic ok
             ++ transit_trace tf (nth_error travel (i + 1))
                  (highest_frame hp ef) in
  forall v,
    signal_after STEPPER_FORWARD_DO v t = 0 /\
    signal_after STEPPER_BACKWARDS_DO v t = 0 /\
    signal_after PRESSURE_DO v t = v.
Proof.
  intros Hd t v. unfold t, monitor_trace.
  destruct (diagnostic_silent diagnostic Hd) as (_ & _ & _ & _ & Hs).
  rewrite !signal_after_app, !Hs.
  destruct dry_run, ok, (nth_error travel (i + 1)); repeat split.
Qed.

(** C6, as the script has it. The two stepper signals are at 0 when the
    run ends, on either path. The pressure supply is switched off only by
    the post-run commands: a run that passes the length check returns
    with it at 0, a run that fails the check ends in the exception with
    no command after the pre-run ones, so that outside dry-run mode the
    pressure supply stays at 1. *)
Theorem signals_at_exit (v : Z) :
  let m := main dry_run start_from frames_dict robot_joints_at in
  signal_after STEPPER_FORWARD_DO v (trace m) = 0 /\
  signal_after STEPPER_BACKWARDS_DO v (trace m) = 0 /\
  (result m, signal_after PRESSURE_DO v (trace m))
  = if (List.length extrude =? List.length travel)%nat
    then (Return tt, 0)
    else (Raise
            (Exception
               "Lengths of extrude_frames and travel_frames do not match"),
          if dry_run then 0 else 1).
Proof.
  cbv zeta.
  destruct (Nat.eqb_spec (List.length extrude) (List.length travel))
    as [Hlen | Hne].
  - destruct (main_run
                (fun t => forall v,
                   signal_after STEPPER_FORWARD_DO v t = v /\
                   signal_after STEPPER_BACKWARDS_DO v t = v /\
                   signal_after PRESSURE_DO v t = v \/
                   signal_after STEPPER_FORWARD_DO v t = 0 /\
                   signal_after STEPPER_BACKWARDS_DO v t = 0 /\
                   signal_after PRESSURE_DO v t = v))
      as (t & Hrun & Ht); auto.
    + intros t1 t2 H1 H2 w. rewrite !signal_after_app.
      destruct (H1 w) as [(-> & -> & ->) | (-> & -> & ->)].
      * apply H2.
      * destruct (H2 0) as [(E1 & E2 & _) | (E1 & E2 & _)];
          destruct (H2 w) as [(_ & _ & E3) | (_ & _ & E3)];
          right; auto.
    + intros i hp tf ef diagnostic ok _ _ Hd w. right.
      now apply cycle_signals.
    + rewrite Hrun. unfold trace, result. cbn [fst snd].
      rewrite !signal_after_app.
      assert (Hpre : signal_after STEPPER_FORWARD_DO v (pre_run dry_run) = 0 /\
                     signal_after STEPPER_BACKWARDS_DO v (pre_run dry_run) = 0)
        by (destruct dry_run; split; reflexivity).
      destruct Hpre as [-> ->].
      destruct (Ht 0) as [(-> & -> & _) | (-> & -> & _)];
        destruct (Ht (signal_after PRESSURE_DO v (pre_run dry_run)))
          as [(_ & _ & ->) | (_ & _ & ->)];
        destruct dry_run; repeat split.
  - rewrite (main_stops_at_check Hne).
    destruct dry_run; repeat split.
Qed.

(** Classifies the events of an explicit trace by the way they are sent. *)
Ltac event_kinds :=
  repeat (apply Forall_cons;
          [first [ left; reflexivity
                 | right; left; eexists; reflexivity
                 | right; right; eexists; reflexivity ] |]);
  try apply Forall_nil.

(** C8, as the script has it. In a cycle the awaited commands are the
    joint read and, when a next travel frame exists, the hop to the safe
    midpoint, in this order: two awaited commands in a cycle that has a
    next index, the joint read alone in the last one. Everything else in
    the trace of the cycle is a fire-and-forget command or console
    output. *)
Theorem awaited_commands_of_cycle (n i : nat) (hp : option Frame)
  (tf ef : Frame)
  (Ht : nth_error travel i = Some tf) (He : nth_error extrude i = Some ef) :
  let t := trace (body n i hp) in
  awaited t
  = SendAndWait GetJoints
      :: transit_trace tf (nth_error travel (i + 1)) (highest_frame hp ef)
  /\
  ((i + 1 < List.length travel)%nat ->
   exists next_entry_frame,
     nth_error travel (i + 1) = Some next_entry_frame /\
     awaited t
     = [SendAndWait GetJoints;
        SendAndWait
          (MoveToFrame
             (safe_midpoint_frame tf next_entry_frame
                (z (point (highest_frame hp ef))) Z_HOP)
             TRAVEL_SPEED Z5 JOINT)])
  /\
  ((List.length travel <= i + 1)%nat -> awaited t = [SendAndWait GetJoints])
  /\
  (forall e, In e t -> is_awaited e = false ->
     (exists ins, e = Send ins) \/ (exists c, e = Print c)).
Proof.
  intros t.
  destruct (is_robot_joints_ok_returns (robot_joints_at i))
    as (diagnostic & ok & Hj & Hd).
  assert (Hawaited :
    awaited t
    = SendAndWait GetJoints
        :: transit_trace tf (nth_error travel (i + 1)) (highest_frame hp ef)).
  { unfold t, trace.
    rewrite (cycle_run n i hp tf ef diagnostic ok Ht He Hj).
    cbn [fst]. unfold awaited, monitor_trace. rewrite !filter_app.
    destruct (diagnostic_silent diagnostic Hd) as (Hs & _).
    unfold awaited in Hs. rewrite Hs.
    destruct dry_run, ok, (nth_error travel (i + 1)); reflexivity. }
  split; [exact Hawaited|]. split; [|split].
  - intros Hlt. apply nth_error_Some in Hlt.
    destruct (nth_error travel (i + 1)) as [nf|] eqn:E; [|congruence].
    exists nf. split; [reflexivity | exact Hawaited].
  - intros Hge. apply nth_error_None in Hge.
    rewrite Hawaited, Hge. reflexivity.
  - assert (Hall : Forall (fun e => is_awaited e = true \/
                                    (exists ins, e = Send ins) \/
                                    (exists c, e = Print c)) t).
    { unfold t, trace.
      rewrite (cycle_run n i hp tf ef diagnostic ok Ht He Hj).
      cbn [fst]. unfold monitor_trace.
      apply Forall_app; split;
        [unfold deposit_trace; destruct dry_run; cbn [app]; event_kinds|].
      apply Forall_app; split;
        [|destruct (nth_error travel (i + 1)); cbn [transit_trace];
          event_kinds].
      apply Forall_app; split; [event_kinds|].
      apply Forall_app; split; [|destruct ok; event_kinds].
      eapply Forall_impl; [|exact Hd]. cbn. eauto. }
    intros e Hin Hnot. rewrite Forall_forall in Hall.
    destruct (Hall e Hin) as [Hw | Hrest]; [congruence | exact Hrest].
Qed.

(** The frame moves of a cycle. *)
Lemma cycle_frame_moves (n i : nat) (hp : option Frame)
  (tf ef : Frame)
  (Ht : nth_error travel i = Some tf) (He : nth_error extrude i = Some ef) :
  frame_moves (trace (body n i hp))
  = (tf, Z1, JOINT) :: (ef, FINE, LINEAR) :: (tf, Z1, LINEAR)
      :: match nth_error travel (i + 1) with
         | Some next_entry_frame =>
             [(safe_midpoint_frame tf next_entry_frame
                 (z (point (highest_frame hp ef))) Z_HOP, Z5, JOINT)]
         | None => []
         end.
Proof.
  destruct (is_robot_joints_ok_returns (robot_joints_at i))
    as (diagnostic & ok & Hj & Hd).
  unfold trace.
  rewrite (cycle_run n i hp tf ef diagnostic ok Ht He Hj).
  cbn [fst].
  destruct (diagnostic_silent diagnostic Hd) as (_ & Hs & _).
  assert (Happ : forall t1 t2,
             frame_moves (t1 ++ t2) = frame_moves t1 ++ frame_moves t2).
  { induction t1 as [|e t1 IH]; intros t2; [reflexivity|].
    cbn. rewrite IH. now destruct (frame_move e). }
  unfold monitor_trace. rewrite !Happ, Hs.
  destruct dry_run, ok, (nth_error travel (i + 1)); reflexivity.
Qed.

(** C9. A cycle takes one travel frame for its index and moves to it
    twice, as the entry target before the deposition and as the exit
    target after it; the hop that follows is computed from that same
    frame and the next travel frame. *)
Theorem entry_frame_is_exit_frame (n i : nat) (hp : option Frame)
  (travel_frame extrude_frame : Frame)
  (Ht : nth_error travel i = Some travel_frame)
  (He : nth_error extrude i = Some extrude_frame) :
  exists entry_frame exit_frame transit,
    frame_moves (trace (body n i hp))
    = (entry_frame, Z1, JOINT) :: (extrude_frame, FINE, LINEAR)
        :: (exit_frame, Z1, LINEAR) :: transit
    /\ entry_frame = travel_frame
    /\ exit_frame = travel_frame
    /\ transit
       = match nth_error travel (i + 1) with
         | Some next_entry_frame =>
             [(safe_midpoint_frame exit_frame next_entry_frame
                 (z (point (highest_frame hp extrude_frame))) Z_HOP,
               Z5, JOINT)]
         | None => []
         end.
Proof.
  exists travel_frame, travel_frame. eexists.
  split; [apply cycle_frame_moves; assumption|]. auto.
Qed.

(** With the bounds check on the number of travel frames, a cycle does
    what it does with the exception. *)
Lemma cycle_checked (n i : nat) (hp : option Frame) :
  n = List.length travel ->
  cycle dry_run frames_dict robot_joints_at (transit_checked frames_dict n)
    n i hp
  = body n i hp.
Proof.
  intros ->. unfold loop_body, cycle, index, get_joints.
  destruct (nth_error travel i) as [tf|]; [|reflexivity].
  destruct (nth_error extrude i) as [ef|]; [|reflexivity].
  destruct (is_robot_joints_ok_returns (robot_joints_at i))
    as (diagnostic & ok & Hj & _).
  destruct dry_run;
    cbn -[is_robot_joints_ok transit_try transit_checked
          update_highest_placed str String.append];
    rewrite Hj, transit_checked_try; reflexivity.
Qed.

(** C7. The run with the exception-driven end of the loop is the run
    with the explicit check [i + 1 < n]. When the lists have the same
    length the run returns normally; the cycle of the last index sends
    its three frame moves and no hop, awaits the joint read only, and is
    followed at once by the post-run commands, which start with the move
    to the home joints. An exception of another kind in the guarded step
    is not taken for the end of the sequence. *)
Theorem end_of_sequence_by_bounds_check :
  let m := main dry_run start_from frames_dict robot_joints_at in
  let n := List.length extrude in
  m = main_checked dry_run start_from frames_dict robot_joints_at
  /\
  (List.length extrude = List.length travel ->
   result m = Return tt
   /\
   (forall i hp tf ef,
      (i + 1 = n)%nat ->
      nth_error travel i = Some tf -> nth_error extrude i = Some ef ->
      result (body n i hp) = Return (Some (highest_frame hp ef)) /\
      frame_moves (trace (body n i hp))
      = [(tf, Z1, JOINT); (ef, FINE, LINEAR); (tf, Z1, LINEAR)] /\
      awaited (trace (body n i hp)) = [SendAndWait GetJoints])
   /\
   ((start_from < n)%nat ->
    exists t hp,
      trace m
      = pre_run dry_run ++ t ++ trace (body n (n - 1) hp) ++ post_run))
  /\
  (forall i tf, (i + 1 < List.length travel)%nat ->
     transit_try frames_dict i tf None = ([], Raise AttributeError)).
Proof.
  cbv zeta. split; [|split].
  - unfold main, main_checked. rewrite !script_run.
    destruct (Nat.eqb_spec (List.length extrude) (List.length travel))
      as [Hlen | Hne]; [|reflexivity].
    unfold for_range.
    rewrite (for_each_ext _
               (cycle dry_run frames_dict robot_joints_at
                  (transit_checked frames_dict (List.length extrude))
                  (List.length extrude))
               (body (List.length extrude))); [reflexivity|].
    intros i s _. now apply cycle_checked.
  - intros Hlen. split; [|split].
    + destruct (main_run (fun _ => True)) as (t & Hrun & _); auto.
      now rewrite Hrun.
    + intros i hp tf ef Hi Ht He.
      assert (Hnone : nth_error travel (i + 1) = None)
        by (apply nth_error_None; lia).
      destruct (is_robot_joints_ok_returns (robot_joints_at i))
        as (diagnostic & ok & Hj & Hd).
      split; [|split].
      * now rewrite (cycle_run (List.length extrude) i hp tf ef
                       diagnostic ok Ht He Hj).
      * rewrite (cycle_frame_moves _ i hp tf ef Ht He), Hnone. reflexivity.
      * unfold trace.
        rewrite (cycle_run (List.length extrude) i hp tf ef
                   diagnostic ok Ht He Hj), Hnone.
        cbn [fst transit_trace]. unfold awaited, monitor_trace.
        rewrite !filter_app.
        destruct (diagnostic_silent diagnostic Hd) as (Hs & _).
        unfold awaited in Hs. rewrite Hs.
        destruct dry_run, ok; reflexivity.
    + intros Hlt.
      destruct (loop_run (fun _ => True) (List.length extrude)
                  (List.length extrude - 1))
        as (t & Hrun & _); auto; try lia.
      exists t, (highest_placed_at extrude start_from
                   (List.length extrude - 1)).
      unfold main. rewrite script_run, Hlen, Nat.eqb_refl, <- Hlen.
      fold (loop_body dry_run frames_dict robot_joints_at).
      unfold for_range in *.
      replace (List.length extrude) with (S (List.length extrude - 1))
        at 1 by lia.
      rewrite range_snoc, for_each_app, (bind_Return _ _ _ _ Hrun) by lia.
      destruct (nth_error travel (List.length extrude - 1)) as [tf|] eqn:Etf;
        [|apply nth_error_None in Etf; lia].
      destruct (nth_error extrude (List.length extrude - 1)) as [ef|] eqn:Eef;
        [|apply nth_error_None in Eef; lia].
      destruct (is_robot_joints_ok_returns
                  (robot_joints_at (List.length extrude - 1)))
        as (diagnostic & ok & Hj & _).
      cbn [for_each].
      rewrite (cycle_run (List.length extrude) (List.length extrude - 1) _
                 tf ef diagnostic ok Etf Eef Hj).
      unfold trace. cbn [bind ret fst snd].
      rewrite !app_nil_r, <- !app_assoc. reflexivity.
  - intros i tf Hlt. unfold transit_try, index.
    apply nth_error_Some in Hlt.
    destruct (nth_error travel (i + 1)); [reflexivity | congruence].
Qed.

End Run.

(** ** Dry run *)

(** C5, as the script has it. In dry-run mode a cycle sends exactly the
    commands of a normal cycle less those that drive an actuator (the two
    signals set to 1 and the half-second wait of the retraction): the
    dwell wait and the two commands setting the stepper signals to 0 are
    still sent, and the motion commands are the same. *)
Theorem dry_run_cycle (frames_dict : frames) (robot_joints_at : nat -> list Q)
  (n i : nat) (hp : option Frame)
  (Ht : (i < List.length (travel_frames frames_dict))%nat)
  (He : (i < List.length (extrude_frames frames_dict))%nat) :
  let dry := trace (loop_body true frames_dict robot_joints_at n i hp) in
  let wet := trace (loop_body false frames_dict robot_joints_at n i hp) in
  dry = filter (fun e => negb (drives_actuator e)) wet /\
  (forall e, In e dry -> drives_actuator e = false) /\
  In (Send (WaitTime PAUSE_AT_PT_SECONDS)) dry /\
  In (Send (SetDigital STEPPER_FORWARD_DO 0)) dry /\
  In (Send (SetDigital STEPPER_BACKWARDS_DO 0)) dry /\
  filter is_motion_command dry = filter is_motion_command wet.
Proof.
  intros dry wet.
  destruct (nth_error (travel_frames frames_dict) i) as [tf|] eqn:Etf;
    [|apply nth_error_None in Etf; lia].
  destruct (nth_error (extrude_frames frames_dict) i) as [ef|] eqn:Eef;
    [|apply nth_error_None in Eef; lia].
  destruct (is_robot_joints_ok_returns (robot_joints_at i))
    as (diagnostic & ok & Hj & Hd).
  destruct (diagnostic_silent diagnostic Hd) as (_ & _ & Hmotion & Hkeep & _).
  unfold dry, wet, trace.
  rewrite (cycle_run true _ _ n i hp tf ef diagnostic ok Etf Eef Hj).
  rewrite (cycle_run false _ _ n i hp tf ef diagnostic ok Etf Eef Hj).
  cbn [fst]. unfold monitor_trace.
  assert (Hfilter :
    deposit_trace true n i tf ef ++
      ([SendAndWait GetJoints] ++ diagnostic ++
         (if ok then []
          else [Send (PrintText "Resetting joint positions.");
                Send (MoveToJoints RESET_POS EXTERNAL_AXES_DUMMY
                        TRAVEL_SPEED Z10)])) ++
      transit_trace tf (nth_error (travel_frames frames_dict) (i + 1))
        (highest_frame hp ef)
    = filter (fun e => negb (drives_actuator e))
        (deposit_trace false n i tf ef ++
           ([SendAndWait GetJoints] ++ diagnostic ++
              (if ok then []
               else [Send (PrintText "Resetting joint positions.");
                     Send (MoveToJoints RESET_POS EXTERNAL_AXES_DUMMY
                             TRAVEL_SPEED Z10)])) ++
           transit_trace tf (nth_error (travel_frames frames_dict) (i + 1))
             (highest_frame hp ef))).
  { rewrite !filter_app, Hkeep.
    destruct ok, (nth_error (travel_frames frames_dict) (i + 1));
      reflexivity. }
  split; [exact Hfilter|]. split; [|split; [|split; [|split]]].
  - intros e Hin. rewrite Hfilter in Hin.
    apply filter_In in Hin. destruct Hin as [_ Hin].
    now destruct (drives_actuator e).
  - apply in_or_app. left. cbn. auto.
  - apply in_or_app. left. cbn. auto.
  - apply in_or_app. left. cbn. auto 6.
  - rewrite !filter_app. reflexivity.
Qed.

(** ** Examples *)

(** A reading of 90.0 on axis 1 is out of range, 89.999 is not. *)
Example reading_at_bound :
  is_robot_joints_ok [90; 0; 0; 0; 0; 180]%Q
  = ([Print (JointOutOfBounds 1 (-90) 90 90)], Return false).
Proof. reflexivity. Qed.

Example reading_below_bound :
  is_robot_joints_ok [89.999; 0; 0; 0; 0; 180]%Q = ([], Return true).
Proof. reflexivity. Qed.

(** Axes 2 and 4 both out of range: axis 2 is the one reported. *)
Example reading_two_violations :
  is_robot_joints_ok [0; 400; 0; 200; 0; 180]%Q
  = ([Print (JointOutOfBounds 2 (-360) 360 400)], Return false).
Proof. reflexivity. Qed.

(** Deposition at z = 10 and a hop of 30: the hop after the first element
    of the sample goes through z = 40, half way in x and y. *)
Example sample_first_hop :
  transit_trace (sample_frame 0 0 50) (Some (sample_frame 2 4 50))
    (sample_frame 0 0 10)
  = [SendAndWait
       (MoveToFrame
          (mkFrame (mkPoint (2 # 2) (4 # 2) 40) (mkVector 1 0 0)
             (mkVector 0 1 0))
          TRAVEL_SPEED Z5 JOINT)].
Proof. reflexivity. Qed.

(** The configured run starts at index 449: on the two sample frames the
    loop is empty and the run goes from the pre-run to the post-run
    commands. *)
Example configured_run_on_sample :
  configured_main sample_frames home_reading
  = (pre_run DRY_RUN ++ post_run, Return tt).
Proof. reflexivity. Qed.

(** ** Runs on the sample inputs *)

Lemma dry_run_cycle_witness :
  (0 < List.length (travel_frames sample_frames))%nat /\
  (0 < List.length (extrude_frames sample_frames))%nat /\
  trace (loop_body true sample_frames home_reading 2 0 None)
  = filter (fun e => negb (drives_actuator e))
      (trace (loop_body false sample_frames home_reading 2 0 None)).
Proof.
  assert (Ht : (0 < List.length (travel_frames sample_frames))%nat)
    by (simpl; lia).
  assert (He : (0 < List.length (extrude_frames sample_frames))%nat)
    by (simpl; lia).
  split; [exact Ht|]. split; [exact He|].
  exact (proj1 (dry_run_cycle sample_frames home_reading 2 0 None Ht He)).
Defined.

(** A dry-run cycle still sends the dwell wait and sets both stepper
    signals to 0. *)
Lemma dry_run_cycle_waits_and_resets :
  let t := trace (loop_body true sample_frames home_reading 2 0 None) in
  In (Send (WaitTime PAUSE_AT_PT_SECONDS)) t /\
  In (Send (SetDigital STEPPER_FORWARD_DO 0)) t /\
  In (Send (SetDigital STEPPER_BACKWARDS_DO 0)) t.
Proof. cbn. auto 10. Qed.

(** With one extrude frame and no travel frame the run fails the length
    check, and the move to the home joints has been sent by then. *)
Lemma length_mismatch_after_home_move :
  let m := configured_main mismatched_frames home_reading in
  List.length (extrude_frames mismatched_frames)
  <> List.length (travel_frames mismatched_frames) /\
  result m
  = Raise
      (Exception "Lengths of extrude_frames and travel_frames do not match") /\
  In (Send (MoveToJoints HOME_POS EXTERNAL_AXES_DUMMY TRAVEL_SPEED FINE))
     (trace m) /\
  existsb is_motion_command (trace m) = true.
Proof.
  cbv zeta. split; [cbn; lia|]. split; [reflexivity|].
  split; [cbn; auto 20 | reflexivity].
Qed.

Lemma main_length_mismatch_witness :
  List.length (extrude_frames mismatched_frames)
  <> List.length (travel_frames mismatched_frames) /\
  frame_moves (trace (main DRY_RUN START_FROM mismatched_frames home_reading))
  = [].
Proof.
  assert (H : List.length (extrude_frames mismatched_frames)
              <> List.length (travel_frames mismatched_frames))
    by (simpl; lia).
  split; [exact H|].
  exact (proj2 (proj2 (main_length_mismatch DRY_RUN START_FROM
                         mismatched_frames home_reading H))).
Defined.

(** The same run ends with the pressure supply still at 1. *)
Lemma pressure_left_on_after_mismatch :
  let m := configured_main mismatched_frames home_reading in
  result m
  = Raise
      (Exception "Lengths of extrude_frames and travel_frames do not match") /\
  signal_after PRESSURE_DO 0 (trace m) = 1.
Proof. split; reflexivity. Qed.

(** The cycle of the last index awaits one command, not two. *)
Lemma last_cycle_awaits_once :
  let t := trace (loop_body DRY_RUN sample_frames home_reading 2 1
                    (Some (sample_frame 0 0 10))) in
  awaited t = [SendAndWait GetJoints] /\ List.length (awaited t) <> 2%nat.
Proof. cbv zeta. split; [reflexivity | cbn; lia]. Qed.

Lemma awaited_commands_of_cycle_witness :
  nth_error (travel_frames sample_frames) 0 = Some (sample_frame 0 0 50) /\
  nth_error (extrude_frames sample_frames) 0 = Some (sample_frame 0 0 10) /\
  awaited (trace (loop_body DRY_RUN sample_frames home_reading 2 0 None))
  = SendAndWait GetJoints
      :: transit_trace (sample_frame 0 0 50)
           (nth_error (travel_frames sample_frames) (0 + 1))
           (highest_frame None (sample_frame 0 0 10)).
Proof.
  split; [reflexivity|]. split; [reflexivity|].
  exact (proj1 (awaited_commands_of_cycle DRY_RUN sample_frames home_reading
                  2 0 None (sample_frame 0 0 50) (sample_frame 0 0 10)
                  eq_refl eq_refl)).
Defined.

Lemma entry_frame_is_exit_frame_witness :
  nth_error (travel_frames sample_frames) 0 = Some (sample_frame 0 0 50) /\
  nth_error (extrude_frames sample_frames) 0 = Some (sample_frame 0 0 10) /\
  exists entry_frame exit_frame transit,
    frame_moves (trace (loop_body DRY_RUN sample_frames home_reading 2 0 None))
    = (entry_frame, Z1, JOINT) :: (sample_frame 0 0 10, FINE, LINEAR)
        :: (exit_frame, Z1, LINEAR) :: transit
    /\ entry_frame = sample_frame 0 0 50
    /\ exit_frame = sample_frame 0 0 50
    /\ transit
       = match nth_error (travel_frames sample_frames) (0 + 1) with
         | Some next_entry_frame =>
             [(safe_midpoint_frame exit_frame next_entry_frame
                 (z (point (highest_frame None (sample_frame 0 0 10)))) Z_HOP,
               Z5, JOINT)]
         | None => []
         end.
Proof.
  split; [reflexivity|]. split; [reflexivity|].
  exact (entry_frame_is_exit_frame DRY_RUN sample_frames home_reading
           2 0 None (sample_frame 0 0 50) (sample_frame 0 0 10)
           eq_refl eq_refl).
Defined.

Lemma highest_placed_running_maximum_witness :
  List.length (extrude_frames sample_frames)
  = List.length (travel_frames sample_frames) /\
  (2 <= List.length (extrude_frames sample_frames))%nat /\
  result (for_range 0 2
            (loop_body DRY_RUN sample_frames home_reading
               (List.length (extrude_frames sample_frames))) None)
  = Return (highest_placed_at (extrude_frames sample_frames) 0 2).
Proof.
  assert (Hstop : (2 <= List.length (extrude_frames sample_frames))%nat)
    by (simpl; lia).
  split; [reflexivity|]. split; [exact Hstop|].
  exact (proj1 (highest_placed_running_maximum DRY_RUN 0 sample_frames
                  home_reading eq_refl 2 Hstop)).
Defined.

Lemma end_of_sequence_by_bounds_check_witness :
  List.length (extrude_frames sample_frames)
  = List.length (travel_frames sample_frames) /\
  result (main DRY_RUN 0 sample_frames home_reading) = Return tt.
Proof.
  split; [reflexivity|].
  exact (proj1 (proj1 (proj2 (end_of_sequence_by_bounds_check DRY_RUN 0
                                sample_frames home_reading)) eq_refl)).
Defined.

Lemma is_robot_joints_ok_six_axes_witness :
  nth_error [90; 0; 0; 0; 0; 180]%Q 0 = Some 90%Q /\
  nth_error OK_RANGES 0 = Some (-90, 90) /\
  (90 == inject_Z 90)%Q /\
  result (is_robot_joints_ok [90; 0; 0; 0; 0; 180]%Q) = Return false.
Proof.
  split; [reflexivity|]. split; [reflexivity|]. split; [reflexivity|].
  exact (proj1 (proj2 (is_robot_joints_ok_six_axes 90 0 0 0 0 180))
           0%nat 90%Q (-90) 90 eq_refl eq_refl (or_intror (Qeq_refl 90))).
Defined.

(** * Further properties of the run *)

Lemma frame_moves_app (t1 t2 : list event) :
  frame_moves (t1 ++ t2) = frame_moves t1 ++ frame_moves t2.
Proof.
  induction t1 as [|e t1 IH]; [reflexivity|].
  cbn. rewrite IH. now destruct (frame_move e).
Qed.

Lemma depositions_app (t1 t2 : list event) :
  depositions (t1 ++ t2) = depositions t1 ++ depositions t2.
Proof. unfold depositions. now rewrite frame_moves_app, flat_map_app. Qed.

Lemma range_empty (start stop : nat) :
  (stop <= start)%nat -> range start stop = [].
Proof. intros H. unfold range. now replace (stop - start)%nat with 0%nat by lia. Qed.

Lemma skipn_nth_error_cons {A} (l : list A) : forall (i : nat) (a : A),
  nth_error l i = Some a -> skipn i l = a :: skipn (S i) l.
Proof.
  induction l as [|b l IH]; intros [|i] a H; try discriminate H.
  - now injection H as ->.
  - cbn in H. apply IH in H. exact H.
Qed.

(** Reading a list by index over [range(start, len)] gives its tail. *)
Lemma flat_map_range_skipn {A} (l : list A) (k : nat) : forall start,
  (start + k = List.length l)%nat ->
  flat_map (fun i => match nth_error l i with Some a => [a] | None => [] end)
    (seq start k)
  = skipn start l.
Proof.
  induction k as [|k IH]; intros start H.
  - cbn. symmetry. apply skipn_all2. lia.
  - cbn [seq flat_map].
    destruct (nth_error l start) as [a|] eqn:E;
      [|apply nth_error_None in E; lia].
    rewrite (skipn_nth_error_cons l start a E), IH by lia. reflexivity.
Qed.

Lemma flat_map_ext_in {A B} (f g : A -> list B) (l : list A) :
  (forall a, In a l -> f a = g a) -> flat_map f l = flat_map g l.
Proof.
  induction l as [|a l IH]; intros H; [reflexivity|].
  cbn. rewrite (H a) by now left.
  rewrite IH; [reflexivity|]. intros. apply H. now right.
Qed.

Lemma depositions_flat_map {A} (f : A -> list event) (l : list A) :
  depositions (flat_map f l) = flat_map (fun a => depositions (f a)) l.
Proof.
  induction l as [|a l IH]; [reflexivity|].
  cbn [flat_map]. now rewrite depositions_app, IH.
Qed.

Lemma frame_moves_flat_map {A} (f : A -> list event) (l : list A) :
  frame_moves (flat_map f l) = flat_map (fun a => frame_moves (f a)) l.
Proof.
  induction l as [|a l IH]; [reflexivity|].
  cbn [flat_map]. now rewrite frame_moves_app, IH.
Qed.

(** Console output is no joint move. *)
Lemma console_no_joint_move (d : list event) :
  Forall (fun e => exists c, e = Print c) d -> filter is_joint_move d = [].
Proof. induction 1 as [|e d [c ->] _ IH]; [reflexivity | exact IH]. Qed.

Section WholeRun.

Variable dry_run : bool.
Variable start_from : nat.
Variable frames_dict : frames.
Variable robot_joints_at : nat -> list Q.

Local Abbreviation travel := (travel_frames frames_dict).
Local Abbreviation extrude := (extrude_frames frames_dict).
Local Abbreviation body := (loop_body dry_run frames_dict robot_joints_at).
Local Abbreviation at_ := (highest_placed_at extrude start_from).

(** A cycle within both lists returns, whatever the robot reads. *)
Lemma cycle_returns (n i : nat) (hp : option Frame) :
  (i < List.length travel)%nat -> (i < List.length extrude)%nat ->
  exists tf ef diagnostic ok,
    nth_error travel i = Some tf /\ nth_error extrude i = Some ef /\
    is_robot_joints_ok (robot_joints_at i) = (diagnostic, Return ok) /\
    Forall (fun e => exists c, e = Print c) diagnostic /\
    body n i hp
    = (deposit_trace dry_run n i tf ef ++ monitor_trace diagnostic ok
         ++ transit_trace tf (nth_error travel (i + 1)) (highest_frame hp ef),
       Return (Some (highest_frame hp ef))).
Proof.
  intros Ht He.
  destruct (nth_error travel i) as [tf|] eqn:Etf;
    [|apply nth_error_None in Etf; lia].
  destruct (nth_error extrude i) as [ef|] eqn:Eef;
    [|apply nth_error_None in Eef; lia].
  destruct (is_robot_joints_ok_returns (robot_joints_at i))
    as (diagnostic & ok & Hj & Hd).
  exists tf, ef, diagnostic, ok. repeat split; try assumption.
  now apply cycle_run.
Qed.

(** The loop, cycle by cycle. *)
Lemma loop_trace (n stop : nat) :
  (stop <= List.length travel)%nat -> (stop <= List.length extrude)%nat ->
  for_range start_from stop (body n) None
  = (cycles_trace dry_run frames_dict robot_joints_at n start_from stop,
     Return (at_ stop)).
Proof.
  unfold for_range, cycles_trace, highest_placed_at.
  induction stop as [|m IH]; intros Ht He.
  - rewrite range_empty by lia. reflexivity.
  - destruct (Nat.le_gt_cases start_from m) as [Hle | Hgt].
    + rewrite range_snoc, for_each_app, flat_map_app, fold_left_app by exact Hle.
      rewrite (bind_Return _ _ _ _ (IH ltac:(lia) ltac:(lia))).
      destruct (cycle_returns n m (fold_left (track extrude) (range start_from m) None))
        as (tf & ef & diagnostic & ok & Etf & Eef & Hj & _ & Hrun); try lia.
      cbn [for_each flat_map fold_left].
      fold (highest_placed_at extrude start_from m) in *.
      rewrite Hrun. unfold trace. cbn [bind ret fst snd].
      rewrite !app_nil_r. unfold track.
      rewrite Eef, update_highest_placed_frame. reflexivity.
    + rewrite range_empty by lia. reflexivity.
Qed.

(** X1. A run whose lists have the same length returns, and its trace is
    the pre-run commands, the cycles of [range(start_from, n)] in index
    order, each starting from the [highest_placed] left by the cycles
    before it, and the post-run commands. *)
Theorem run_trace (Hlen : List.length extrude = List.length travel) :
  main dry_run start_from frames_dict robot_joints_at
  = (pre_run dry_run
       ++ cycles_trace dry_run frames_dict robot_joints_at
            (List.length extrude) start_from (List.length extrude)
       ++ post_run,
     Return tt).
Proof.
  unfold main. rewrite script_run, Hlen, Nat.eqb_refl, <- Hlen.
  fold (loop_body dry_run frames_dict robot_joints_at).
  rewrite loop_trace by lia. reflexivity.
Qed.

Lemma cycle_depositions (n i : nat) (hp : option Frame) (ef : Frame) :
  (i < List.length travel)%nat -> nth_error extrude i = Some ef ->
  depositions (trace (body n i hp)) = [ef].
Proof.
  intros Ht He.
  destruct (nth_error travel i) as [tf|] eqn:Etf;
    [|apply nth_error_None in Etf; lia].
  unfold depositions.
  rewrite (cycle_frame_moves dry_run frames_dict robot_joints_at
             n i hp tf ef Etf He).
  destruct (nth_error travel (i + 1)); reflexivity.
Qed.

(** X2. In a run whose lists have the same length the deposition moves
    go, in order and once each, to the extrude frames from index
    [start_from] on: no frame of the range is skipped or printed twice,
    whatever the robot reads. *)
Theorem run_depositions (Hlen : List.length extrude = List.length travel) :
  depositions (trace (main dry_run start_from frames_dict robot_joints_at))
  = skipn start_from extrude.
Proof.
  rewrite (run_trace Hlen).
  unfold trace. cbn [fst]. rewrite !depositions_app.
  replace (depositions (pre_run dry_run)) with (@nil Frame)
    by (destruct dry_run; reflexivity).
  replace (depositions post_run) with (@nil Frame) by reflexivity.
  rewrite app_nil_r. cbn [app].
  unfold cycles_trace. rewrite depositions_flat_map.
  rewrite (flat_map_ext_in _
             (fun i => match nth_error extrude i with
                       | Some a => [a]
                       | None => []
                       end)).
  - destruct (Nat.le_gt_cases start_from (List.length extrude)) as [Hle | Hgt].
    + unfold range. apply flat_map_range_skipn. lia.
    + rewrite range_empty by lia. symmetry. apply skipn_all2. lia.
  - intros i Hi. apply range_In in Hi.
    destruct (nth_error extrude i) as [ef|] eqn:Eef;
      [|apply nth_error_None in Eef; lia].
    apply cycle_depositions; [lia | exact Eef].
Qed.

(** X3. In such a run the hop sent after the cycle of index [i] is
    [Z_HOP] above every extrude frame of the indices [start_from .. i]:
    the transit between two elements clears whatever this run has
    deposited so far. *)
Theorem hop_clears_deposited
  (Hlen : List.length extrude = List.length travel)
  (i : nat) (tf ef nf : Frame) (Hi : (start_from <= i)%nat)
  (Ht : nth_error travel i = Some tf) (He : nth_error extrude i = Some ef)
  (Hn : nth_error travel (i + 1) = Some nf) :
  let hop :=
    safe_midpoint_frame tf nf (z (point (highest_frame (at_ i) ef))) Z_HOP in
  In (SendAndWait (MoveToFrame hop TRAVEL_SPEED Z5 JOINT))
     (trace (main dry_run start_from frames_dict robot_joints_at))
  /\
  forall j f, (start_from <= j <= i)%nat -> nth_error extrude j = Some f ->
    (z (point f) + Z_HOP <= z (point hop))%Q.
Proof.
  intros hop.
  assert (Hlt : (i < List.length extrude)%nat)
    by (apply nth_error_Some; congruence).
  split.
  - rewrite (run_trace Hlen).
    unfold trace. cbn [fst]. apply in_or_app. right. apply in_or_app. left.
    unfold cycles_trace. apply in_flat_map. exists i.
    split; [apply range_In; lia|].
    destruct (is_robot_joints_ok_returns (robot_joints_at i))
      as (diagnostic & ok & Hj & _).
    rewrite (cycle_run dry_run frames_dict robot_joints_at _ i _ tf ef
               diagnostic ok Ht He Hj), Hn.
    unfold trace. cbn [fst].
    apply in_or_app. right. apply in_or_app. right. now left.
  - intros j f Hj Hf.
    assert (Hat : at_ (S i) = Some (highest_frame (at_ i) ef)).
    { rewrite highest_placed_at_snoc by exact Hi.
      unfold track. now rewrite He, update_highest_placed_frame. }
    destruct (highest_placed_at_max extrude start_from (S i))
      as (h & Hh & _ & Hmax); [lia|].
    rewrite Hat in Hh. injection Hh as <-.
    unfold hop, safe_midpoint_frame. cbn [point z].
    apply Qplus_le_compat; [|apply Qle_refl].
    apply (Hmax j); [lia | exact Hf].
Qed.

(** X4. When the lists have the same length and [start_from] is not
    below it, the loop is empty: the run sends the pre-run and the
    post-run commands only and returns. *)
Theorem run_without_cycles
  (Hlen : List.length extrude = List.length travel)
  (Hstart : (List.length extrude <= start_from)%nat) :
  main dry_run start_from frames_dict robot_joints_at
  = (pre_run dry_run ++ post_run, Return tt).
Proof.
  rewrite (run_trace Hlen).
  unfold cycles_trace. rewrite range_empty by exact Hstart. reflexivity.
Qed.

(** X9. A cycle sends the move to [RESET_POS] exactly when the joint
    check fails on the reading of that cycle; the move is sent
    fire-and-forget and is the only joint move of a cycle. *)
Theorem reset_move_iff_invalid (n i : nat) (hp : option Frame)
  (Ht : (i < List.length travel)%nat) (He : (i < List.length extrude)%nat) :
  filter is_joint_move (trace (body n i hp))
  = match result (is_robot_joints_ok (robot_joints_at i)) with
    | Return true => []
    | _ => [Send (MoveToJoints RESET_POS EXTERNAL_AXES_DUMMY
                    TRAVEL_SPEED Z10)]
    end.
Proof.
  destruct (cycle_returns n i hp Ht He)
    as (tf & ef & diagnostic & ok & _ & _ & Hj & Hd & Hrun).
  rewrite Hrun, Hj. unfold trace, result, monitor_trace. cbn [fst snd].
  rewrite !filter_app, (console_no_joint_move diagnostic Hd).
  destruct dry_run, ok, (nth_error travel (i + 1)); reflexivity.
Qed.

End WholeRun.

(** ** The stepper signals *)

Lemma steppers_exclusive_app (t1 t2 : list event) : forall f b,
  steppers_exclusive f b (t1 ++ t2)
  = steppers_exclusive f b t1
    && steppers_exclusive (signal_after STEPPER_FORWARD_DO f t1)
         (signal_after STEPPER_BACKWARDS_DO b t1) t2.
Proof.
  induction t1 as [|e t1 IH]; intros f b; [reflexivity|].
  cbn [steppers_exclusive app signal_after]. rewrite IH.
  now rewrite andb_assoc.
Qed.

(** What the walk decides, on every prefix of the trace. *)
Lemma steppers_exclusive_sound (t : list event) : forall f b,
  ~ (f = 1 /\ b = 1) ->
  steppers_exclusive f b t = true ->
  forall p s, t = p ++ s ->
    ~ (signal_after STEPPER_FORWARD_DO f p = 1 /\
       signal_after STEPPER_BACKWARDS_DO b p = 1).
Proof.
  induction t as [|e t IH]; intros f b Hfb Hwalk p s Hsplit.
  - destruct p; [exact Hfb | discriminate Hsplit].
  - destruct p as [|e' p]; [exact Hfb|].
    injection Hsplit as <- ->.
    cbn [steppers_exclusive] in Hwalk.
    apply andb_true_iff in Hwalk. destruct Hwalk as [Hnow Hrest].
    cbn [signal_after]. eapply IH; [|exact Hrest | reflexivity].
    intros [H1 H2]. rewrite H1, H2 in Hnow. discriminate Hnow.
Qed.

Lemma steppers_exclusive_console (d : list event) :
  Forall (fun e => exists c, e = Print c) d ->
  steppers_exclusive 0 0 d = true.
Proof. induction 1 as [|e d [c ->] _ IH]; [reflexivity | exact IH]. Qed.

(** X5. From stepper signals that are not both at 1, the forward and the
    backwards stepper signals are never at 1 together at any point of a
    run, on any input and in either mode. *)
Theorem steppers_never_both_on (dry_run : bool) (start_from : nat)
  (frames_dict : frames) (robot_joints_at : nat -> list Q)
  (forward backwards : Z)
  (Hinit : ~ (forward = 1 /\ backwards = 1)) :
  forall p s,
    trace (main dry_run start_from frames_dict robot_joints_at) = p ++ s ->
    ~ (signal_after STEPPER_FORWARD_DO forward p = 1 /\
       signal_after STEPPER_BACKWARDS_DO backwards p = 1).
Proof.
  apply steppers_exclusive_sound; [exact Hinit|].
  assert (Hpre : steppers_exclusive forward backwards (pre_run dry_run) = true /\
                 signal_after STEPPER_FORWARD_DO forward (pre_run dry_run) = 0 /\
                 signal_after STEPPER_BACKWARDS_DO backwards (pre_run dry_run)
                 = 0).
  { destruct dry_run; cbn;
      destruct (forward =? 1) eqn:Ef, (backwards =? 1) eqn:Eb;
      repeat split; exfalso; apply Hinit; split; now apply Z.eqb_eq. }
  destruct Hpre as (Hwalk & Hf & Hb).
  destruct (Nat.eq_dec (List.length (extrude_frames frames_dict))
              (List.length (travel_frames frames_dict))) as [Hlen | Hne].
  - set (R := fun t => steppers_exclusive 0 0 t = true /\
                        signal_after STEPPER_FORWARD_DO 0 t = 0 /\
                        signal_after STEPPER_BACKWARDS_DO 0 t = 0).
    assert (Happ : forall t1 t2, R t1 -> R t2 -> R (t1 ++ t2)).
    { intros t1 t2 (W1 & F1 & B1) (W2 & F2 & B2). unfold R.
      rewrite steppers_exclusive_app, !signal_after_app, W1, F1, B1.
      auto. }
    destruct (main_run dry_run start_from frames_dict robot_joints_at R)
      as (t & Hrun & Ht & Ft & Bt); auto.
    { repeat split. }
    { intros i hp tf ef diagnostic ok _ _ Hd.
      destruct (diagnostic_silent diagnostic Hd) as (_ & _ & _ & _ & Hs).
      apply Happ; [destruct dry_run; repeat split|].
      apply Happ;
        [|destruct (nth_error (travel_frames frames_dict) (i + 1));
          repeat split].
      unfold monitor_trace. apply Happ; [repeat split|].
      apply Happ; [|destruct ok; repeat split].
      split; [now apply steppers_exclusive_console | split; apply Hs]. }
    rewrite Hrun. unfold trace. cbn [fst].
    rewrite !steppers_exclusive_app, Hwalk, Hf, Hb, Ht, Ft, Bt.
    reflexivity.
  - rewrite (main_stops_at_check dry_run start_from frames_dict
               robot_joints_at Hne).
    exact Hwalk.
Qed.

Lemma steppers_never_both_on_witness :
  ~ (1 = 1 /\ 0 = 1) /\
  forall p s,
    trace (main false 0 sample_frames home_reading) = p ++ s ->
    ~ (signal_after STEPPER_FORWARD_DO 1 p = 1 /\
       signal_after STEPPER_BACKWARDS_DO 0 p = 1).
Proof.
  assert (H : ~ (1 = 1 /\ 0 = 1)) by (intros [_ H]; discriminate H).
  split; [exact H|].
  exact (steppers_never_both_on false 0 sample_frames home_reading 1 0 H).
Defined.

(** ** Dry run and pressure supply over a whole run *)

(** An event that writes no digital output other than with 0 and is no
    half-second wait. *)
Ltac writes_zero :=
  cbv beta; split;
  [ reflexivity
  | let io := fresh "io" in
    let v := fresh "v" in
    let H := fresh "H" in
    intros io v H; unfold sets in H; cbn [instruction_of] in H;
    first
      [ discriminate H
      | destruct (String.eqb _ io);
        [injection H as <-; reflexivity | discriminate H] ] ].

Ltac all_write_zero :=
  cbv beta iota delta
    [app pre_run deposit_trace monitor_trace transit_trace post_run];
  repeat (apply Forall_cons; [writes_zero|]); apply Forall_nil.

(** X6. A dry run never energises an actuator, on any input: every
    digital output command of the run writes 0 and the half-second wait
    of the retraction is never sent. *)
Theorem dry_run_never_drives (start_from : nat) (frames_dict : frames)
  (robot_joints_at : nat -> list Q) (e : event) :
  In e (trace (main true start_from frames_dict robot_joints_at)) ->
  drives_actuator e = false /\
  forall io v, sets io e = Some v -> v = 0.
Proof.
  set (P := fun e => drives_actuator e = false /\
                     forall io v, sets io e = Some v -> v = 0).
  enough (H : Forall P
                (trace (main true start_from frames_dict robot_joints_at))).
  { intros Hin. rewrite Forall_forall in H. exact (H e Hin). }
  assert (Hpre : Forall P (pre_run true)) by (unfold pre_run, P; all_write_zero).
  destruct (Nat.eq_dec (List.length (extrude_frames frames_dict))
              (List.length (travel_frames frames_dict))) as [Hlen | Hne].
  - destruct (main_run true start_from frames_dict robot_joints_at (Forall P))
      as (t & Hrun & Ht); auto.
    + intros t1 t2 H1 H2. apply Forall_app. now split.
    + intros i hp tf ef diagnostic ok _ _ Hd.
      apply Forall_app. split; [unfold deposit_trace, P; all_write_zero|].
      apply Forall_app. split.
      * unfold monitor_trace.
        apply Forall_app. split; [unfold P; all_write_zero|].
        apply Forall_app. split.
        -- eapply Forall_impl; [|exact Hd].
           intros a [c ->]. unfold P. writes_zero.
        -- destruct ok; unfold P; all_write_zero.
      * destruct (nth_error (travel_frames frames_dict) (i + 1));
          unfold transit_trace, P; all_write_zero.
    + rewrite Hrun. unfold trace. cbn [fst].
      apply Forall_app. split; [exact Hpre|].
      apply Forall_app. split; [exact Ht|].
      unfold post_run, P. all_write_zero.
  - rewrite (main_stops_at_check true start_from frames_dict
               robot_joints_at Hne).
    exact Hpre.
Qed.

Lemma dry_run_never_drives_witness :
  In (Send (SetDigital PRESSURE_DO 0))
     (trace (main true 0 sample_frames home_reading)) /\
  drives_actuator (Send (SetDigital PRESSURE_DO 0)) = false.
Proof.
  assert (H : In (Send (SetDigital PRESSURE_DO 0))
                 (trace (main true 0 sample_frames home_reading)))
    by (cbn; auto 10).
  split; [exact H|].
  exact (proj1 (dry_run_never_drives 0 sample_frames home_reading _ H)).
Defined.

Lemma signal_untouched (io : string) (t : list event) :
  Forall (fun e => sets io e = None) t ->
  forall v, signal_after io v t = v.
Proof.
  induction 1 as [|e t He _ IH]; intros v; [reflexivity|].
  cbn [signal_after]. rewrite He. apply IH.
Qed.

(** X7. Outside dry-run mode, in a run whose lists have the same length,
    the pressure supply is at 1 from the end of the pre-run commands to
    the start of the post-run commands: no command of a cycle writes it. *)
Theorem pressure_held_during_cycles (start_from : nat) (frames_dict : frames)
  (robot_joints_at : nat -> list Q) (v : Z)
  (Hlen : List.length (extrude_frames frames_dict)
          = List.length (travel_frames frames_dict)) :
  exists t,
    trace (main false start_from frames_dict robot_joints_at)
    = pre_run false ++ t ++ post_run /\
    forall p s, t = p ++ s ->
      signal_after PRESSURE_DO v (pre_run false ++ p) = 1.
Proof.
  set (P := fun e => sets PRESSURE_DO e = None).
  destruct (main_run false start_from frames_dict robot_joints_at (Forall P))
    as (t & Hrun & Ht); auto.
  - intros t1 t2 H1 H2. apply Forall_app. now split.
  - intros i hp tf ef diagnostic ok _ _ Hd.
    apply Forall_app. split; [repeat constructor|].
    apply Forall_app. split.
    + unfold monitor_trace.
      apply Forall_app. split; [repeat constructor|].
      apply Forall_app. split.
      * eapply Forall_impl; [|exact Hd]. now intros a [c ->].
      * destruct ok; repeat constructor.
    + destruct (nth_error (travel_frames frames_dict) (i + 1));
        repeat constructor.
  - exists t. split; [now rewrite Hrun|].
    intros p s ->. apply Forall_app in Ht. destruct Ht as [Hp _].
    rewrite signal_after_app, (signal_untouched _ _ Hp). reflexivity.
Qed.

Lemma pressure_held_during_cycles_witness :
  List.length (extrude_frames sample_frames)
  = List.length (travel_frames sample_frames) /\
  exists t,
    trace (main false 0 sample_frames home_reading)
    = pre_run false ++ t ++ post_run /\
    forall p s, t = p ++ s ->
      signal_after PRESSURE_DO 0 (pre_run false ++ p) = 1.
Proof.
  split; [reflexivity|].
  exact (pressure_held_during_cycles 0 sample_frames home_reading 0 eq_refl).
Defined.

(** ** Joint readings, resumed runs *)

(** X8. The joint readings of the robot change neither the path nor the
    outcome of a run: with the same frames, two runs send the same frame
    moves in the same order and end the same way, whatever is read and
    however often the reset move is triggered. *)
Theorem run_path_independent_of_readings (dry_run : bool) (start_from : nat)
  (frames_dict : frames) (readings readings' : nat -> list Q) :
  frame_moves (trace (main dry_run start_from frames_dict readings))
  = frame_moves (trace (main dry_run start_from frames_dict readings'))
  /\
  result (main dry_run start_from frames_dict readings)
  = result (main dry_run start_from frames_dict readings').
Proof.
  destruct (Nat.eq_dec (List.length (extrude_frames frames_dict))
              (List.length (travel_frames frames_dict))) as [Hlen | Hne].
  - rewrite !(run_trace dry_run start_from frames_dict _ Hlen).
    unfold trace, result. cbn [fst snd]. split; [|reflexivity].
    rewrite !frame_moves_app. do 2 f_equal.
    unfold cycles_trace. rewrite !frame_moves_flat_map.
    apply flat_map_ext_in. intros i Hi. apply range_In in Hi.
    destruct (nth_error (travel_frames frames_dict) i) as [tf|] eqn:Etf;
      [|apply nth_error_None in Etf; lia].
    destruct (nth_error (extrude_frames frames_dict) i) as [ef|] eqn:Eef;
      [|apply nth_error_None in Eef; lia].
    now rewrite !(cycle_frame_moves dry_run frames_dict _ _ i _ tf ef Etf Eef).
  - now rewrite !(main_stops_at_check dry_run start_from frames_dict _ Hne).
Qed.

Lemma combine_app_ignored {A B} (l : list A) : forall (r : list B) (extra : list A),
  List.length l = List.length r -> combine (l ++ extra) r = combine l r.
Proof.
  induction l as [|a l IH]; intros [|b r] extra H; try discriminate H.
  - now destruct extra.
  - cbn. f_equal. apply IH. now injection H.
Qed.

(** X10. A reading with more than six values is checked on its first six
    only: whatever follows them changes neither the verdict nor the
    diagnostic. *)
Theorem is_robot_joints_ok_ignores_extra (js extra : list Q)
  (Hsix : List.length js = 6%nat) :
  is_robot_joints_ok (js ++ extra) = is_robot_joints_ok js.
Proof.
  unfold is_robot_joints_ok, zip.
  now rewrite combine_app_ignored by exact Hsix.
Qed.

Lemma is_robot_joints_ok_ignores_extra_witness :
  List.length [0; 0; 0; 0; 0; 180]%Q = 6%nat /\
  is_robot_joints_ok ([0; 0; 0; 0; 0; 180] ++ [1000; -1000])%Q
  = is_robot_joints_ok [0; 0; 0; 0; 0; 180]%Q.
Proof.
  split; [reflexivity|].
  exact (is_robot_joints_ok_ignores_extra [0; 0; 0; 0; 0; 180]%Q
           [1000; -1000]%Q eq_refl).
Defined.

(** X11. A run resumed at index [k] starts with no highest placed frame.
    In the cycle of a later index it sends the same commands as the run
    started at [start] up to the hop, and its hop, to the same x and y
    and with the same axes, is never higher: the frames deposited before
    [k] no longer count for the clearance. *)
Theorem resumed_run_hops_no_higher (dry_run : bool) (frames_dict : frames)
  (robot_joints_at : nat -> list Q) (n start k i : nat)
  (Hk : (start <= k <= i)%nat)
  (Ht : (i < List.length (travel_frames frames_dict))%nat)
  (He : (i < List.length (extrude_frames frames_dict))%nat) :
  let full := highest_placed_at (extrude_frames frames_dict) start i in
  let resumed := highest_placed_at (extrude_frames frames_dict) k i in
  exists common tf ef,
    nth_error (travel_frames frames_dict) i = Some tf /\
    nth_error (extrude_frames frames_dict) i = Some ef /\
    trace (loop_body dry_run frames_dict robot_joints_at n i full)
    = common
        ++ transit_trace tf (nth_error (travel_frames frames_dict) (i + 1))
             (highest_frame full ef) /\
    trace (loop_body dry_run frames_dict robot_joints_at n i resumed)
    = common
        ++ transit_trace tf (nth_error (travel_frames frames_dict) (i + 1))
             (highest_frame resumed ef) /\
    (z (point (highest_frame resumed ef))
     <= z (point (highest_frame full ef)))%Q.
Proof.
  intros full resumed.
  destruct (cycle_returns dry_run frames_dict robot_joints_at n i full Ht He)
    as (tf & ef & diagnostic & ok & Etf & Eef & Hj & _ & Hfull).
  exists (deposit_trace dry_run n i tf ef ++ monitor_trace diagnostic ok),
    tf, ef.
  split; [exact Etf|]. split; [exact Eef|]. split; [|split].
  - rewrite Hfull. unfold trace. cbn [fst]. now rewrite <- app_assoc.
  - rewrite (cycle_run dry_run frames_dict robot_joints_at n i resumed tf ef
               diagnostic ok Etf Eef Hj).
    unfold trace. cbn [fst]. now rewrite <- app_assoc.
  - assert (Hat : forall m, (m <= i)%nat ->
              highest_placed_at (extrude_frames frames_dict) m (S i)
              = Some (highest_frame
                        (highest_placed_at (extrude_frames frames_dict) m i)
                        ef)).
    { intros m Hm. rewrite highest_placed_at_snoc by exact Hm.
      unfold track. now rewrite Eef, update_highest_placed_frame. }
    destruct (highest_placed_at_max (extrude_frames frames_dict) k (S i))
      as (h & Hh & (j & Hj' & Hjh) & _); [lia|].
    destruct (highest_placed_at_max (extrude_frames frames_dict) start (S i))
      as (h' & Hh' & _ & Hmax); [lia|].
    rewrite Hat in Hh, Hh' by lia.
    injection Hh as <-. injection Hh' as <-.
    apply (Hmax j); [lia | exact Hjh].
Qed.

Lemma resumed_run_hops_no_higher_witness :
  (0 <= 1 <= 1)%nat /\
  (1 < List.length (travel_frames sample_frames))%nat /\
  (1 < List.length (extrude_frames sample_frames))%nat /\
  exists common tf ef,
    nth_error (travel_frames sample_frames) 1 = Some tf /\
    nth_error (extrude_frames sample_frames) 1 = Some ef /\
    trace (loop_body false sample_frames home_reading 2 1
             (highest_placed_at (extrude_frames sample_frames) 0 1))
    = common
        ++ transit_trace tf (nth_error (travel_frames sample_frames) (1 + 1))
             (highest_frame
                (highest_placed_at (extrude_frames sample_frames) 0 1) ef) /\
    trace (loop_body false sample_frames home_reading 2 1
             (highest_placed_at (extrude_frames sample_frames) 1 1))
    = common
        ++ transit_trace tf (nth_error (travel_frames sample_frames) (1 + 1))
             (highest_frame
                (highest_placed_at (extrude_frames sample_frames) 1 1) ef) /\
    (z (point (highest_frame
                 (highest_placed_at (extrude_frames sample_frames) 1 1) ef))
     <= z (point (highest_frame
                    (highest_placed_at (extrude_frames sample_frames) 0 1)
                    ef)))%Q.
Proof.
  assert (Hk : (0 <= 1 <= 1)%nat) by lia.
  assert (Ht : (1 < List.length (travel_frames sample_frames))%nat)
    by (simpl; lia).
  assert (He : (1 < List.length (extrude_frames sample_frames))%nat)
    by (simpl; lia).
  split; [exact Hk|]. split; [exact Ht|]. split; [exact He|].
  exact (resumed_run_hops_no_higher false sample_frames home_reading
           2 0 1 1 Hk Ht He).
Defined.

(** Witnesses of the run theorems on the sample. *)
Lemma run_trace_witness :
  List.length (extrude_frames sample_frames)
  = List.length (travel_frames sample_frames) /\
  main false 0 sample_frames home_reading
  = (pre_run false
       ++ cycles_trace false sample_frames home_reading
            (List.length (extrude_frames sample_frames)) 0
            (List.length (extrude_frames sample_frames))
       ++ post_run,
     Return tt).
Proof.
  split; [reflexivity|].
  exact (run_trace false 0 sample_frames home_reading eq_refl).
Defined.

Lemma run_depositions_witness :
  List.length (extrude_frames sample_frames)
  = List.length (travel_frames sample_frames) /\
  depositions (trace (main false 1 sample_frames home_reading))
  = skipn 1 (extrude_frames sample_frames).
Proof.
  split; [reflexivity|].
  exact (run_depositions false 1 sample_frames home_reading eq_refl).
Defined.

Lemma hop_clears_deposited_witness :
  List.length (extrude_frames sample_frames)
  = List.length (travel_frames sample_frames) /\
  (0 <= 0)%nat /\
  nth_error (travel_frames sample_frames) 0 = Some (sample_frame 0 0 50) /\
  nth_error (extrude_frames sample_frames) 0 = Some (sample_frame 0 0 10) /\
  nth_error (travel_frames sample_frames) (0 + 1)
  = Some (sample_frame 2 4 50) /\
  In (SendAndWait
        (MoveToFrame
           (safe_midpoint_frame (sample_frame 0 0 50) (sample_frame 2 4 50)
              (z (point (highest_frame
                           (highest_placed_at
                              (extrude_frames sample_frames) 0 0)
                           (sample_frame 0 0 10))))
              Z_HOP)
           TRAVEL_SPEED Z5 JOINT))
     (trace (main false 0 sample_frames home_reading)).
Proof.
  split; [reflexivity|]. split; [lia|].
  split; [reflexivity|]. split; [reflexivity|]. split; [reflexivity|].
  exact (proj1 (hop_clears_deposited false 0 sample_frames home_reading
                  eq_refl 0 _ _ _ (Nat.le_refl 0) eq_refl eq_refl eq_refl)).
Defined.

Lemma run_without_cycles_witness :
  List.length (extrude_frames sample_frames)
  = List.length (travel_frames sample_frames) /\
  (List.length (extrude_frames sample_frames) <= START_FROM)%nat /\
  main DRY_RUN START_FROM sample_frames home_reading
  = (pre_run DRY_RUN ++ post_run, Return tt).
Proof.
  assert (H : (List.length (extrude_frames sample_frames) <= START_FROM)%nat)
    by (unfold START_FROM; simpl; lia).
  split; [reflexivity|]. split; [exact H|].
  exact (run_without_cycles DRY_RUN START_FROM sample_frames home_reading
           eq_refl H).
Defined.

Lemma reset_move_iff_invalid_witness :
  (0 < List.length (travel_frames sample_frames))%nat /\
  (0 < List.length (extrude_frames sample_frames))%nat /\
  filter is_joint_move
    (trace (loop_body false sample_frames (fun _ => [90; 0; 0; 0; 0; 180]%Q)
              2 0 None))
  = match result (is_robot_joints_ok [90; 0; 0; 0; 0; 180]%Q) with
    | Return true => []
    | _ => [Send (MoveToJoints RESET_POS EXTERNAL_AXES_DUMMY
                    TRAVEL_SPEED Z10)]
    end.
Proof.
  assert (Ht : (0 < List.length (travel_frames sample_frames))%nat)
    by (simpl; lia).
  assert (He : (0 < List.length (extrude_frames sample_frames))%nat)
    by (simpl; lia).
  split; [exact Ht|]. split; [exact He|].
  exact (reset_move_iff_invalid false sample_frames
           (fun _ => [90; 0; 0; 0; 0; 180]%Q) 2 0 None Ht He).
Defined.

(** * Properties of the fabrication element *)

(** Rewrites with the keys known to be present. *)
Ltac present :=
  repeat match goal with
         | E : FabricationElement.get _ _ = Some _ |- _ => rewrite E
         end.



Section ElementFacts.

Import FabricationElement.

Variable Data_init : dict -> option error.
Variable Transformation : Type.
Variable frame_transform : Transformation -> Frame -> Frame.

(** X12. The constructor never stores the trajectories and the timestamp
    it is given. A keyword argument with the name of a parameter is bound
    to the parameter and is not in [kwargs]; the constructor then rebinds
    the three optional parameters from [kwargs], so that the element it
    builds has [None] in the three optional fields. *)
Theorem init_drops_optional_arguments
  (location entry exit_ trajectory_in trajectory_out timestamp : value)
  (kwargs : dict)
  (H1 : get kwargs "placed_isotimestamp" = None)
  (H2 : get kwargs "entry_trajectory" = None)
  (H3 : get kwargs "exit_trajectory" = None) :
  init Data_init location entry exit_ trajectory_in trajectory_out timestamp
    kwargs
  = match Data_init kwargs with
    | Some e => inl e
    | None => inr (mkElement location entry exit_ PyNone PyNone PyNone)
    end.
Proof. unfold init, pop. now rewrite H1, H2, H3. Qed.

(** X13. [from_data] on the data of an element gives an element with the
    same three frames, by reference, and [None] for the trajectories and
    the timestamp: the element itself comes back exactly when it had
    none. *)
Theorem from_data_of_data (self : element) (Hbase : Data_init [] = None) :
  from_data Data_init (data self)
  = inr (mkElement (location_frame self) (entry_frame self) (exit_frame self)
           PyNone PyNone PyNone)
  /\
  (from_data Data_init (data self) = inr self <->
   entry_trajectory self = PyNone /\ exit_trajectory self = PyNone /\
   placed_isotimestamp self = PyNone).
Proof.
  assert (H : from_data Data_init (data self)
              = inr (mkElement (location_frame self) (entry_frame self)
                       (exit_frame self) PyNone PyNone PyNone)).
  { unfold from_data, data, init, pop. cbn. now rewrite Hbase. }
  split; [exact H|]. rewrite H. destruct self as [l e x a b c]. cbn.
  split.
  - intros E. injection E as <- <- <-. auto.
  - intros (-> & -> & ->). reflexivity.
Qed.

(** X14. Setting the data of an element to the data of another makes it
    that other element, whatever it was before. *)
Theorem set_data_of_data (self other : element) :
  set_data self (data other) = (other, None).
Proof. now destruct other. Qed.

(** X15. When the dictionary has the six keys, in any order and among
    any others, the setter raises nothing and each field holds the value
    of its key. *)
Theorem set_data_reads_all_keys (self : element) (d : dict)
  (Hkeys : forall k, In k keys -> get d k <> None) :
  snd (set_data self d) = None /\
  map Some (fields (fst (set_data self d))) = map (get d) keys.
Proof.
  unfold set_data, keys, fields in *.
  destruct (get d "location_frame") eqn:E1;
    [|exfalso; apply (Hkeys "location_frame"); cbn; auto].
  destruct (get d "entry_frame") eqn:E2;
    [|exfalso; apply (Hkeys "entry_frame"); cbn; auto].
  destruct (get d "exit_frame") eqn:E3;
    [|exfalso; apply (Hkeys "exit_frame"); cbn; auto].
  destruct (get d "entry_trajectory") eqn:E4;
    [|exfalso; apply (Hkeys "entry_trajectory"); cbn; auto].
  destruct (get d "exit_trajectory") eqn:E5;
    [|exfalso; apply (Hkeys "exit_trajectory"); cbn; auto 6].
  destruct (get d "placed_isotimestamp") eqn:E6;
    [|exfalso; apply (Hkeys "placed_isotimestamp"); cbn; auto 7].
  cbn. now rewrite E1, E2, E3, E4, E5, E6.
Qed.

(** X16. The setter is not atomic. When the key of position [j] is the
    first one missing, it raises [KeyError] for that key after having
    assigned the fields before it: these hold the values of the
    dictionary, the others keep what they had. *)
Theorem set_data_missing_key (self : element) (d : dict) (j : nat)
  (Hj : (j < 6)%nat)
  (Hbefore : forall k, In k (firstn j keys) -> get d k <> None)
  (Hmissing : get d (nth j keys ""%string) = None) :
  snd (set_data self d) = Some (KeyError (nth j keys ""%string)) /\
  map Some (firstn j (fields (fst (set_data self d))))
  = map (get d) (firstn j keys) /\
  skipn j (fields (fst (set_data self d))) = skipn j (fields self).
Proof.
  assert (Hpresent : forall i k, (i < j)%nat -> nth_error keys i = Some k ->
                       exists v, get d k = Some v).
  { intros i k Hi Hk. destruct (get d k) as [v|] eqn:E; [now exists v|].
    exfalso. apply (Hbefore k); [|exact E].
    rewrite <- (firstn_skipn j keys) in Hk.
    rewrite nth_error_app1 in Hk by (rewrite length_firstn; cbn; lia).
    eapply nth_error_In. exact Hk. }
  unfold set_data.
  destruct j as [|j];
    [cbn in Hmissing; rewrite Hmissing; cbn; present; solve [auto]|].
  destruct (Hpresent 0%nat "location_frame"%string) as [v1 E1];
    [lia | reflexivity |].
  rewrite E1.
  destruct j as [|j];
    [cbn in Hmissing; rewrite Hmissing; cbn; present; solve [auto]|].
  destruct (Hpresent 1%nat "entry_frame"%string) as [v2 E2];
    [lia | reflexivity |].
  rewrite E2.
  destruct j as [|j];
    [cbn in Hmissing; rewrite Hmissing; cbn; present; solve [auto]|].
  destruct (Hpresent 2%nat "exit_frame"%string) as [v3 E3];
    [lia | reflexivity |].
  rewrite E3.
  destruct j as [|j];
    [cbn in Hmissing; rewrite Hmissing; cbn; present; solve [auto]|].
  destruct (Hpresent 3%nat "entry_trajectory"%string) as [v4 E4];
    [lia | reflexivity |].
  rewrite E4.
  destruct j as [|j];
    [cbn in Hmissing; rewrite Hmissing; cbn; present; solve [auto]|].
  destruct (Hpresent 4%nat "exit_trajectory"%string) as [v5 E5];
    [lia | reflexivity |].
  rewrite E5.
  destruct j as [|j];
    [cbn in Hmissing; rewrite Hmissing; cbn; present; solve [auto]|].
  lia.
Qed.

(** Transforming a list of frame references: each cell of the heap is
    transformed once for every occurrence of its reference. *)
Lemma transform_each_refs (xform : Transformation) (rs : list ref) :
  forall h,
    exists h',
      transform_each Transformation frame_transform (map FrameRef rs) xform h
      = (h', None) /\
      forall r, h' r
                = Nat.iter (count_occ Nat.eq_dec rs r)
                    (frame_transform xform) (h r).
Proof.
  induction rs as [|r0 rs IH]; intros h.
  - exists h. split; [reflexivity | intros; reflexivity].
  - destruct (IH (update h r0 (frame_transform xform (h r0))))
      as (h' & Hrun & Hcells).
    exists h'. split; [exact Hrun|].
    intros r. rewrite Hcells. unfold update.
    destruct (Nat.eq_dec r0 r) as [-> | Hne].
    + rewrite count_occ_cons_eq, Nat.eqb_refl by reflexivity.
      now rewrite Nat.iter_succ_r.
    + rewrite count_occ_cons_neq by exact Hne.
      destruct (Nat.eqb_spec r r0); [congruence | reflexivity].
Qed.

(** X17. [transform] on an element whose three frames are frame objects
    raises nothing and transforms each frame object once for each of the
    three fields that refers to it; every other frame of the heap is left
    as it is. *)
Theorem transform_once_per_field (self : element) (xform : Transformation)
  (h : heap) (r1 r2 r3 : ref)
  (H1 : location_frame self = FrameRef r1)
  (H2 : entry_frame self = FrameRef r2)
  (H3 : exit_frame self = FrameRef r3) :
  exists h',
    transform Transformation frame_transform self xform h = (h', None) /\
    forall r, h' r
              = Nat.iter (count_occ Nat.eq_dec [r1; r2; r3] r)
                  (frame_transform xform) (h r).
Proof.
  unfold transform, _get_defining_geometries. rewrite H1, H2, H3.
  exact (transform_each_refs xform [r1; r2; r3] h).
Qed.

(** X18. An element built with one frame object for both the entry and
    the exit frame has that frame transformed twice by one call of
    [transform], and its location frame once. *)
Theorem transform_shared_egress_twice (self : element)
  (xform : Transformation) (h : heap) (location egress : ref)
  (Hdistinct : location <> egress)
  (H1 : location_frame self = FrameRef location)
  (H2 : entry_frame self = FrameRef egress)
  (H3 : exit_frame self = FrameRef egress) :
  exists h',
    transform Transformation frame_transform self xform h = (h', None) /\
    h' egress = frame_transform xform (frame_transform xform (h egress)) /\
    h' location = frame_transform xform (h location).
Proof.
  unfold transform, _get_defining_geometries. rewrite H1, H2, H3.
  destruct (transform_each_refs xform [location; egress; egress] h)
    as (h' & Hrun & Hcells).
  exists h'. split; [exact Hrun|]. rewrite !Hcells. cbn.
  destruct (Nat.eq_dec location egress) as [E | _]; [contradiction|].
  destruct (Nat.eq_dec egress egress) as [_ | N]; [|contradiction].
  destruct (Nat.eq_dec egress location) as [E | _];
    [symmetry in E; contradiction|].
  destruct (Nat.eq_dec location location) as [_ | N]; [|contradiction].
  split; reflexivity.
Qed.

(** X19. [transform] stops at the first of the three fields that holds no
    frame object: it raises [AttributeError] and the frames of the fields
    before it stay transformed. With a frame object as location frame
    and none as entry frame, the location frame is transformed and the
    exit frame is not. *)
Theorem transform_stops_at_missing_frame (self : element)
  (xform : Transformation) (h : heap) (location : ref)
  (H1 : location_frame self = FrameRef location)
  (H2 : forall r, entry_frame self <> FrameRef r) :
  transform Transformation frame_transform self xform h
  = (update h location (frame_transform xform (h location)),
     Some AttributeError).
Proof.
  unfold transform, _get_defining_geometries. rewrite H1.
  cbn [transform_each].
  destruct (entry_frame self) as [|r| | |]; try reflexivity.
  exfalso. now apply (H2 r).
Qed.

End ElementFacts.

Lemma init_drops_optional_arguments_witness :
  FabricationElement.get [] "placed_isotimestamp" = None /\
  FabricationElement.get [] "entry_trajectory" = None /\
  FabricationElement.get [] "exit_trajectory" = None /\
  FabricationElement.init (fun _ => None)
    (FabricationElement.FrameRef 0%nat) (FabricationElement.FrameRef 1%nat)
    (FabricationElement.FrameRef 1%nat)
    (FabricationElement.Trajectory [[0; 0; 0; 0; 0; 180]%Q])
    (FabricationElement.Trajectory [])
    (FabricationElement.Str "2023-05-01T10:00:00") []
  = inr (FabricationElement.mkElement
           (FabricationElement.FrameRef 0%nat) (FabricationElement.FrameRef 1%nat)
           (FabricationElement.FrameRef 1%nat)
           FabricationElement.PyNone FabricationElement.PyNone
           FabricationElement.PyNone).
Proof.
  split; [reflexivity|]. split; [reflexivity|]. split; [reflexivity|].
  exact (init_drops_optional_arguments (fun _ => None) _ _ _ _ _ _ []
           eq_refl eq_refl eq_refl).
Defined.

(** An element with a timestamp, for the witnesses. *)
Lemma from_data_of_data_witness :
  let self :=
    FabricationElement.mkElement
      (FabricationElement.FrameRef 0%nat) (FabricationElement.FrameRef 1%nat)
      (FabricationElement.FrameRef 1%nat)
      FabricationElement.PyNone FabricationElement.PyNone
      (FabricationElement.Str "2023-05-01T10:00:00") in
  FabricationElement.from_data (fun _ => None) (FabricationElement.data self)
  = inr (FabricationElement.mkElement
           (FabricationElement.FrameRef 0%nat) (FabricationElement.FrameRef 1%nat)
           (FabricationElement.FrameRef 1%nat)
           FabricationElement.PyNone FabricationElement.PyNone
           FabricationElement.PyNone).
Proof.
  exact (proj1 (from_data_of_data (fun _ => None) _ eq_refl)).
Defined.

Lemma set_data_reads_all_keys_witness :
  let d :=
    [("exit_frame"%string, FabricationElement.FrameRef 2%nat);
     ("name"%string, FabricationElement.Str "bullet");
     ("entry_frame"%string, FabricationElement.FrameRef 1%nat);
     ("location_frame"%string, FabricationElement.FrameRef 0%nat);
     ("placed_isotimestamp"%string, FabricationElement.PyNone);
     ("exit_trajectory"%string, FabricationElement.PyNone);
     ("entry_trajectory"%string, FabricationElement.PyNone)] in
  let self :=
    FabricationElement.mkElement
      FabricationElement.PyNone FabricationElement.PyNone
      FabricationElement.PyNone FabricationElement.PyNone
      FabricationElement.PyNone FabricationElement.PyNone in
  (forall k, In k FabricationElement.keys ->
     FabricationElement.get d k <> None) /\
  snd (FabricationElement.set_data self d) = None.
Proof.
  cbv zeta.
  match goal with
  | |- ?H /\ _ => assert (Hkeys : H)
  end.
  { intros k Hk. cbn in Hk.
    repeat (destruct Hk as [<- | Hk]; [discriminate|]). destruct Hk. }
  split; [exact Hkeys|].
  exact (proj1 (set_data_reads_all_keys _ _ Hkeys)).
Defined.

Lemma set_data_missing_key_witness :
  let d :=
    [("location_frame"%string, FabricationElement.FrameRef 0%nat);
     ("entry_frame"%string, FabricationElement.FrameRef 1%nat)] in
  let self :=
    FabricationElement.mkElement
      FabricationElement.PyNone FabricationElement.PyNone
      (FabricationElement.FrameRef 7%nat) FabricationElement.PyNone
      FabricationElement.PyNone FabricationElement.PyNone in
  (2 < 6)%nat /\
  (forall k, In k (firstn 2 FabricationElement.keys) ->
     FabricationElement.get d k <> None) /\
  FabricationElement.get d (nth 2 FabricationElement.keys ""%string) = None /\
  snd (FabricationElement.set_data self d)
  = Some (FabricationElement.KeyError
            (nth 2 FabricationElement.keys ""%string)).
Proof.
  cbv zeta.
  assert (Hj : (2 < 6)%nat) by lia.
  split; [exact Hj|].
  match goal with
  | |- ?H /\ _ => assert (Hbefore : H)
  end.
  { intros k Hk. cbn in Hk.
    repeat (destruct Hk as [<- | Hk]; [discriminate|]). destruct Hk. }
  split; [exact Hbefore|]. split; [reflexivity|].
  exact (proj1 (set_data_missing_key _ _ 2 Hj Hbefore eq_refl)).
Defined.

Lemma transform_once_per_field_witness :
  FabricationElement.location_frame sample_element
  = FabricationElement.FrameRef 0%nat /\
  FabricationElement.entry_frame sample_element
  = FabricationElement.FrameRef 1%nat /\
  FabricationElement.exit_frame sample_element
  = FabricationElement.FrameRef 2%nat /\
  exists h',
    FabricationElement.transform Q lift sample_element 5%Q sample_heap
    = (h', None) /\
    forall r, h' r
              = Nat.iter (count_occ Nat.eq_dec [0; 1; 2]%nat r)
                  (lift 5%Q) (sample_heap r).
Proof.
  split; [reflexivity|]. split; [reflexivity|]. split; [reflexivity|].
  exact (transform_once_per_field Q lift sample_element 5%Q sample_heap
           0%nat 1%nat 2%nat eq_refl eq_refl eq_refl).
Defined.

Lemma transform_shared_egress_twice_witness :
  0%nat <> 1%nat /\
  exists h',
    FabricationElement.transform Q lift shared_egress_element 5%Q sample_heap
    = (h', None) /\
    h' 1%nat = lift 5%Q (lift 5%Q (sample_heap 1%nat)) /\
    h' 0%nat = lift 5%Q (sample_heap 0%nat).
Proof.
  assert (H : 0%nat <> 1%nat) by discriminate.
  split; [exact H|].
  exact (transform_shared_egress_twice Q lift shared_egress_element 5%Q
           sample_heap 0%nat 1%nat H eq_refl eq_refl eq_refl).
Defined.

Lemma transform_stops_at_missing_frame_witness :
  (forall r, FabricationElement.entry_frame no_entry_element
             <> FabricationElement.FrameRef r) /\
  FabricationElement.transform Q lift no_entry_element 5%Q sample_heap
  = (FabricationElement.update sample_heap 0%nat
       (lift 5%Q (sample_heap 0%nat)),
     Some FabricationElement.AttributeError).
Proof.
  assert (Hnone : forall r, FabricationElement.entry_frame no_entry_element
                            <> FabricationElement.FrameRef r)
    by (intros r; discriminate).
  split; [exact Hnone|].
  exact (transform_stops_at_missing_frame Q lift no_entry_element 5%Q
           sample_heap 0%nat eq_refl Hnone).
Defined.

(** * The agent *)

(** X20. The constructor of [Agent] never returns: it adds the UUID
    object that [uuid4()] returns to the name prefix, a string, which
    raises [TypeError] before any attribute is set, whatever the prefix,
    the position and the attributes. *)
Theorem agent_init_raises (Point_of : list Q -> Agent.error + Point)
  (name_prefix : string) (initial_position : list Q)
  (initial_attributes : option (list (string * string))) (uuid4 : N) :
  Agent.init Point_of name_prefix initial_position initial_attributes uuid4
  = inl Agent.TypeError
  /\
  forall a, Agent.init Point_of name_prefix initial_position
              initial_attributes uuid4 <> inr a.
Proof.
  assert (H : Agent.init Point_of name_prefix initial_position
                initial_attributes uuid4 = inl Agent.TypeError)
    by reflexivity.
  split; [exact H|]. intros a. rewrite H. discriminate.
Qed.
